(** * jiraclient.py: a shallow embedding and its checked properties

    The development follows [src/jiraclient.py].  Python values are an
    inductive type, the attribute dictionary of an [Issue] and the lookup
    tables are finite maps, and the methods of [Jiraclient] are written in a
    state-and-exception monad over the state of the client and of the world
    it acts on (session file, log, terminal, requests sent). *)

From Stdlib Require Import ZArith String Ascii List Bool Lia.
From stdpp Require Import base option list strings gmap fin_maps pretty.

Open Scope string_scope.
Open Scope list_scope.
Open Scope Z_scope.

(** ** Python values *)

(** The values that occur in an [Issue], in a request body and in a parsed
    JSON answer.  A [dict] is kept as a list of bindings with distinct keys;
    nothing below depends on the order of the bindings. *)
#[warnings="-register-all"]
Inductive pyval :=
| PNone
| PStr (s : string)
| PInt (z : Z)
| PList (l : list pyval)
| PDict (d : list (string * pyval)).

(** [bool(v)], as used by [if not v]. *)
Definition py_truth (v : pyval) : bool :=
  match v with
  | PNone => false
  | PStr s => negb (String.eqb s "")
  | PInt z => negb (z =? 0)
  | PList l => match l with [] => false | _ => true end
  | PDict d => match d with [] => false | _ => true end
  end.

Fixpoint dict_get {A} (k : string) (d : list (string * A)) : option A :=
  match d with
  | [] => None
  | (k', v) :: d' => if String.eqb k k' then Some v else dict_get k d'
  end.

Definition has_key {A} (k : string) (d : list (string * A)) : bool :=
  match dict_get k d with Some _ => true | None => false end.

(** [d[k] = v]: the binding is replaced where the key exists, and added
    otherwise. *)
Fixpoint dict_set {A} (k : string) (v : A) (d : list (string * A))
  : list (string * A) :=
  match d with
  | [] => [(k, v)]
  | (k', v') :: d' =>
      if String.eqb k k' then (k, v) :: d' else (k', v') :: dict_set k v d'
  end.

(** [v == w].  Lists are compared element by element, dictionaries binding
    by binding whatever their order; values of different types differ. *)
Fixpoint py_eq (v w : pyval) {struct v} : bool :=
  match v, w with
  | PNone, PNone => true
  | PStr s, PStr t => String.eqb s t
  | PInt a, PInt b => a =? b
  | PList l, PList m =>
      (fix all2 (l : list pyval) (m : list pyval) {struct l} : bool :=
         match l, m with
         | [], [] => true
         | x :: l', y :: m' => py_eq x y && all2 l' m'
         | _, _ => false
         end) l m
  | PDict d, PDict e =>
      Nat.eqb (length d) (length e) &&
      (fix each (d : list (string * pyval)) {struct d} : bool :=
         match d with
         | [] => true
         | (k, x) :: d' =>
             match dict_get k e with
             | Some y => py_eq x y
             | None => false
             end && each d'
         end) d
  | _, _ => false
  end.

(** The literals of the source. *)
Definition id_None : pyval := PDict [("id", PNone)].
Definition name_None : pyval := PDict [("name", PNone)].
Definition list_id_None : pyval := PList [id_None].

(** ** Strings *)

(** [c.lower()] on one character of a byte string. *)
Definition lower_ascii (c : ascii) : ascii :=
  let n := N_of_ascii c in
  if ((65 <=? n) && (n <=? 90))%N then ascii_of_N (n + 32) else c.

(** [s.lower()]. *)
Fixpoint lower (s : string) : string :=
  match s with
  | EmptyString => EmptyString
  | String c s' => String (lower_ascii c) (lower s')
  end.

Definition is_digit (c : ascii) : bool :=
  let n := N_of_ascii c in ((48 <=? n) && (n <=? 57))%N.

(** [str(n)] of an integer. *)
Definition str_of_int (n : Z) : string := pretty n.

(** The text that [%s] puts for an option that may be [None]. *)
Definition fmt_s (o : option string) : string :=
  match o with Some s => s | None => "None" end.

(** [not o] for an option of the command line: [None] and the empty string
    are both false. *)
Definition opt_truth (o : option string) : bool :=
  match o with Some s => negb (String.eqb s "") | None => false end.

(** [int(s)] of a string: blanks around it are dropped, one sign is allowed,
    and what is left has to be decimal digits. *)
Definition is_blank (c : ascii) : bool :=
  let n := N_of_ascii c in ((n =? 32) || ((9 <=? n) && (n <=? 13)))%N.

Fixpoint lstrip (s : string) : string :=
  match s with
  | String c s' => if is_blank c then lstrip s' else s
  | EmptyString => EmptyString
  end.

Fixpoint rstrip (s : string) : string :=
  match s with
  | String c s' =>
      match rstrip s' with
      | EmptyString => if is_blank c then EmptyString else String c EmptyString
      | r => String c r
      end
  | EmptyString => EmptyString
  end.

Fixpoint digits_value (acc : Z) (s : string) : option Z :=
  match s with
  | EmptyString => Some acc
  | String c s' =>
      if is_digit c
      then digits_value (10 * acc + Z.of_N (N_of_ascii c - 48)) s'
      else None
  end.

Definition int_of_str (s : string) : option Z :=
  let unsigned (t : string) :=
    match t with EmptyString => None | _ => digits_value 0 t end in
  match rstrip (lstrip s) with
  | String "-" t => Z.opp <$> unsigned t
  | String "+" t => unsigned t
  | t => unsigned t
  end.

(** ** The duration pattern *)

(** The fragment of Python's [re] that [time_rx] is written in: anchors,
    one character of a class, and one or more characters of a class. *)
Inductive rx_class :=
| ClsDigit                      (* \d *)
| ClsSet (cs : list ascii).     (* [...] *)

Inductive rx_item :=
| RxBegin                       (* ^ *)
| RxEnd                         (* $ *)
| RxOne (c : rx_class)
| RxMany1 (c : rx_class).       (* c+ *)

Definition in_class (c : rx_class) (a : ascii) : bool :=
  match c with
  | ClsDigit => is_digit a
  | ClsSet cs => existsb (Ascii.eqb a) cs
  end.

(** Without [re.MULTILINE], [$] holds at the end of the subject and also just
    before a newline that is its last character. *)
Definition at_end (s : string) : bool :=
  match s with
  | EmptyString => true
  | String c EmptyString => Ascii.eqb c "010"
  | _ => false
  end.

(** [rx_at p first s]: the pattern [p] matches at the front of [s], where
    [first] tells whether [s] is the whole subject.  [RxMany1] is greedy and
    gives characters back when the rest of the pattern fails. *)
Fixpoint rx_at (p : list rx_item) (first : bool) (s : string) : bool :=
  match p with
  | [] => true
  | RxBegin :: p' => first && rx_at p' first s
  | RxEnd :: p' => at_end s && rx_at p' first s
  | RxOne c :: p' =>
      match s with
      | String a s' => in_class c a && rx_at p' false s'
      | EmptyString => false
      end
  | RxMany1 c :: p' =>
      (fix many (s : string) : bool :=
         match s with
         | String a s' => in_class c a && (many s' || rx_at p' false s')
         | EmptyString => false
         end) s
  end.


Fixpoint rx_search_from (p : list rx_item) (first : bool) (s : string) : bool :=
  rx_at p first s ||
  match s with
  | String _ s' => rx_search_from p false s'
  | EmptyString => false
  end.

Definition rx_search (p : list rx_item) (s : string) : bool :=
  rx_search_from p true s.

(** [time_rx = re.compile('^\d+[mhdw]$')] *)
Definition time_rx : list rx_item :=
  [RxBegin; RxMany1 ClsDigit; RxOne (ClsSet ["m"; "h"; "d"; "w"]%char); RxEnd].

Definition time_is_valid (value : string) : bool :=
  let m := rx_search time_rx value in
  if negb m then false else true.

(** ** base64 *)

Definition b64_alphabet : string :=
  "ABCDEFGHIJKLMNOPQRSTUVWXYZabcdefghijklmnopqrstuvwxyz0123456789+/".

Definition b64_char (n : N) : ascii :=
  match String.get (N.to_nat (n mod 64)) b64_alphabet with
  | Some c => c
  | None => "="%char
  end.

(** [base64.b64encode(s)]: three bytes give four characters, and a last
    group of one or two bytes is padded with [=]. *)
Fixpoint b64encode (s : string) : string :=
  match s with
  | EmptyString => EmptyString
  | String a EmptyString =>
      let n := (N_of_ascii a * 65536)%N in
      String (b64_char (n / 262144)) (String (b64_char (n / 4096)) "==")
  | String a (String b EmptyString) =>
      let n := (N_of_ascii a * 65536 + N_of_ascii b * 256)%N in
      String (b64_char (n / 262144)) (String (b64_char (n / 4096))
        (String (b64_char (n / 64)) "="))
  | String a (String b (String c s')) =>
      let n := (N_of_ascii a * 65536 + N_of_ascii b * 256 + N_of_ascii c)%N in
      String (b64_char (n / 262144)) (String (b64_char (n / 4096))
        (String (b64_char (n / 64)) (String (b64_char n) (b64encode s'))))
  end.

(** ** Exceptions *)

Inductive exn :=
| Unauthorized
| SystemExit (code : Z)
| IndexError (msg : string)
| KeyError (key : string)
| AttributeError (name : string)
| TypeError (msg : string)
| ValueError (msg : string)
| OSError (path : string)
| TransportError (msg : string).

(** What a call gives: a value, or an exception on its way up. *)
Inductive outcome (A : Type) :=
| Return (a : A)
| Raise (e : exn).
Arguments Return {A} a.
Arguments Raise {A} e.

Global Instance outcome_ret : MRet outcome := fun A a => Return a.
Global Instance outcome_bind : MBind outcome := fun A B f m =>
  match m with
  | Return a => f a
  | Raise e => Raise e
  end.

Global Instance outcome_fmap : FMap outcome := fun A B f m =>
  match m with
  | Return a => Return (f a)
  | Raise e => Raise e
  end.

(** [str(e)], the text the handler of [call_api] puts into its message. *)
Definition exn_text (e : exn) : string :=
  match e with
  | Unauthorized => "Unauthorized"
  | SystemExit c => str_of_int c
  | IndexError m | TypeError m | ValueError m | TransportError m => m
  | KeyError k => k
  | AttributeError n => n
  | OSError p => p
  end.

(** A [for] loop over a list that carries a value along and stops at the
    first exception. *)
Fixpoint for_each {A S} (body : S -> A -> outcome S) (l : list A) (s : S)
  : outcome S :=
  match l with
  | [] => Return s
  | x :: l' => s' ← body s x; for_each body l' s'
  end.

(** ** Operations on values that can raise *)

(** [v[k]] with a string key. *)
Definition py_getitem (v : pyval) (k : string) : outcome pyval :=
  match v with
  | PDict d =>
      match dict_get k d with
      | Some x => Return x
      | None => Raise (KeyError k)
      end
  | PNone => Raise (TypeError "'NoneType' object has no attribute '__getitem__'")
  | PStr _ => Raise (TypeError "string indices must be integers, not str")
  | PList _ => Raise (TypeError "list indices must be integers, not str")
  | PInt _ => Raise (TypeError "'int' object has no attribute '__getitem__'")
  end.

(** The items a [for item in v] visits. *)
Definition py_iter (v : pyval) : outcome (list pyval) :=
  match v with
  | PList l => Return l
  | PDict d => Return (map (fun kv => PStr (fst kv)) d)
  | PStr s => Return (map (fun c => PStr (String c EmptyString)) (list_ascii_of_string s))
  | PNone => Raise (TypeError "'NoneType' object is not iterable")
  | PInt _ => Raise (TypeError "'int' object is not iterable")
  end.

(** [int(v)]. *)
Definition py_int (v : pyval) : outcome Z :=
  match v with
  | PInt z => Return z
  | PStr s =>
      match int_of_str s with
      | Some z => Return z
      | None => Raise (ValueError "invalid literal for int() with base 10")
      end
  | _ => Raise (TypeError "int() argument must be a string or a number")
  end.

(** [str(v.lower())]. *)
Definition py_lower_str (v : pyval) : outcome string :=
  match v with
  | PStr s => Return (lower s)
  | _ => Raise (AttributeError "lower")
  end.

(** [l.index(x)]: the first position of a value equal to [x]. *)
Fixpoint list_index (x : pyval) (l : list pyval) : outcome nat :=
  match l with
  | [] => Raise (ValueError "x is not in list")
  | y :: l' => if py_eq y x then Return O else S <$> list_index x l'
  end.

(** ** The lookup tables *)

(** [class SearchableDict(dict)]: identifier to lower-case label.  Python
    leaves the order of [iteritems] open; the model visits the bindings in
    the order of [map_to_list], and no result below rests on that order
    unless it says that labels are distinct. *)
Abbreviation SearchableDict := (gmap Z string).

Definition find_key (self : SearchableDict) (val : string) : outcome Z :=
  match last (map_to_list self ≫= fun kv =>
                if String.eqb (snd kv) val then [fst kv] else []) with
  | Some k => Return k
  | None => Raise (IndexError "pop from empty list")
  end.

Definition find_value (self : SearchableDict) (key : Z) : outcome string :=
  match self !! key with
  | Some v => Return v
  | None => Raise (KeyError (str_of_int key))
  end.

(** ** The client and the world around it *)

Inductive level := DEBUG | INFO | WARNING | ERROR | CRITICAL.

Inductive http_method := GET | POST | DELETE.

Definition method_upper (m : http_method) : string :=
  match m with GET => "GET" | POST => "POST" | DELETE => "DELETE" end.

(** A request as the transport sees it.  The payload is the value that
    [json.dumps] was applied to, not its text. *)
Record request := Request {
  req_method : http_method;
  req_uri : string;
  req_headers : list (string * string);
  req_payload : option pyval
}.

(** What the transport does with a request: it raises [Unauthorized], it
    raises something else, or it hands back a body, which parses as JSON
    ([Some]) or does not ([None]). *)
Inductive response :=
| Rejected
| Failed (msg : string)
| Answered (data : option pyval).

Record file := File { st_mode : Z; content : string }.

(** The options that the modelled methods read. *)
Record Options := MkOptions {
  sessionfile : string;
  jiraurl : option string;
  user : option string;
  password : option string;
  noop : bool;
  worklog : option string;
  timespent : option string;
  remaining : option string
}.

Inductive output :=
| Line (s : string)                           (* print s *)
| Formatted (fmt : string) (args : list pyval) (* print fmt % args *)
| Pretty (v : pyval).                         (* pp.pprint(v) *)

(** The fields of [self] that the methods use, and the world they act on.
    [maps] holds references: two names can stand for one table object in
    [tables]. *)
Record world := World {
  options : Options;
  token : option string;
  proxy_uri : string;
  maps : gmap string nat;
  tables : gmap nat (gmap Z string);
  files : gmap string file;
  logged : list (level * string);
  printed : list output;
  sent : list request
}.

Definition set_options (o : Options) (w : world) : world :=
  World o (token w) (proxy_uri w) (maps w) (tables w) (files w) (logged w)
        (printed w) (sent w).
Definition set_token (t : option string) (w : world) : world :=
  World (options w) t (proxy_uri w) (maps w) (tables w) (files w) (logged w)
        (printed w) (sent w).
Definition set_proxy_uri (u : string) (w : world) : world :=
  World (options w) (token w) u (maps w) (tables w) (files w) (logged w)
        (printed w) (sent w).
Definition set_maps (m : gmap string nat) (w : world) : world :=
  World (options w) (token w) (proxy_uri w) m (tables w) (files w) (logged w)
        (printed w) (sent w).
Definition set_tables (t : gmap nat (gmap Z string)) (w : world) : world :=
  World (options w) (token w) (proxy_uri w) (maps w) t (files w) (logged w)
        (printed w) (sent w).
Definition set_files (f : gmap string file) (w : world) : world :=
  World (options w) (token w) (proxy_uri w) (maps w) (tables w) f (logged w)
        (printed w) (sent w).
Definition set_logged (l : list (level * string)) (w : world) : world :=
  World (options w) (token w) (proxy_uri w) (maps w) (tables w) (files w) l
        (printed w) (sent w).
Definition set_printed (p : list output) (w : world) : world :=
  World (options w) (token w) (proxy_uri w) (maps w) (tables w) (files w)
        (logged w) p (sent w).
Definition set_sent (r : list request) (w : world) : world :=
  World (options w) (token w) (proxy_uri w) (maps w) (tables w) (files w)
        (logged w) (printed w) r.

Definition set_password (pw : option string) (o : Options) : Options :=
  MkOptions (sessionfile o) (jiraurl o) (user o) pw (noop o) (worklog o)
            (timespent o) (remaining o).

(** ** The monad of the methods *)

Definition M (A : Type) : Type := world -> outcome A * world.

Global Instance M_ret : MRet M := fun A a w => (Return a, w).
Global Instance M_bind : MBind M := fun A B f m w =>
  match m w with
  | (Return a, w') => f a w'
  | (Raise e, w') => (Raise e, w')
  end.

Definition get {A} (f : world -> A) : M A := fun w => (Return (f w), w).
Definition modify (f : world -> world) : M unit := fun w => (Return tt, f w).
Definition raise {A} (e : exn) : M A := fun w => (Raise e, w).
Definition lift {A} (o : outcome A) : M A := fun w => (o, w).

(** [try: body / except ...: handler].  The handler answers [None] for an
    exception that no clause takes. *)
Definition try_except {A} (body : M A) (handler : exn -> option (M A)) : M A :=
  fun w =>
    match body w with
    | (Return a, w') => (Return a, w')
    | (Raise e, w') =>
        match handler e with
        | Some h => h w'
        | None => (Raise e, w')
        end
    end.

(** A [for] loop in the monad. *)
Fixpoint for_each_M {A} (body : A -> M unit) (l : list A) : M unit :=
  match l with
  | [] => mret tt
  | x :: l' => body x;; for_each_M body l'
  end.

(** Every call of the logger is recorded with its level, whatever level the
    handler is set to show. *)
Definition log (l : level) (msg : string) : M unit :=
  modify (fun w => set_logged (logged w ++ [(l, msg)]) w).

Definition print (o : output) : M unit :=
  modify (fun w => set_printed (printed w ++ [o]) w).

(** [sys.exit(1)] raises [SystemExit]. *)
Definition fatal {A} (msg : string) : M A :=
  log CRITICAL msg;; raise (SystemExit 1).

(** ** Files *)

Definition mode_600 : Z := 6 * 64.
Definition S_IFREG : Z := 32768.
Definition S_IMODE (mode : Z) : Z := Z.land mode 4095.

Definition path_exists (p : string) : M bool :=
  get (fun w => match files w !! p with Some _ => true | None => false end).

Definition unlink (p : string) : M unit := fun w =>
  match files w !! p with
  | Some _ => (Return tt, set_files (delete p (files w)) w)
  | None => (Raise (OSError p), w)
  end.

Definition stat_st_mode (p : string) : M Z := fun w =>
  match files w !! p with
  | Some f => (Return (st_mode f), w)
  | None => (Raise (OSError p), w)
  end.

Definition read_file (p : string) : M string := fun w =>
  match files w !! p with
  | Some f => (Return (content f), w)
  | None => (Raise (OSError p), w)
  end.

Definition chmod (p : string) (mode : Z) : M unit := fun w =>
  match files w !! p with
  | Some f =>
      (Return tt,
       set_files (<[p := File (Z.lor (Z.ldiff (st_mode f) 4095) mode)
                               (content f)]> (files w)) w)
  | None => (Raise (OSError p), w)
  end.

(** ** [class Issue] *)

(** The attribute dictionary of a new [Issue]. *)
Definition Issue_init : gmap string pyval :=
  list_to_map
    [("summary", PStr ""); ("environment", PStr ""); ("description", PStr "");
     ("duedate", PStr ""); ("project", id_None); ("issuetype", id_None);
     ("assignee", name_None); ("priority", id_None);
     ("timetracking", PDict []); ("labels", PList []);
     ("versions", list_id_None); ("fixVersions", list_id_None);
     ("components", list_id_None)].

Definition getattr (obj : gmap string pyval) (key : string) : M pyval :=
  match obj !! key with
  | Some v => mret v
  | None => raise (AttributeError key)
  end.

(** [d.pop(k)] raises [KeyError] when the key is gone. *)
Definition dict_pop (k : string) (d : gmap string pyval)
  : outcome (gmap string pyval) :=
  match d !! k with
  | Some _ => Return (delete k d)
  | None => Raise (KeyError k)
  end.

(** One round of the loop of [create_issue]: three tests in a row, each of
    which pops the key. *)
Definition prune_item (issue : gmap string pyval) (kv : string * pyval)
  : outcome (gmap string pyval) :=
  let '(k, v) := kv in
  issue1 ← (if negb (py_truth v) then dict_pop k issue else Return issue);
  issue2 ← (if py_eq v id_None then dict_pop k issue1 else Return issue1);
  if py_eq v list_id_None then dict_pop k issue2 else Return issue2.

(** [for k,v in issue.items(): ...]: [items()] is a list made before the loop
    starts, so the loop may pop from the dictionary. *)
Definition prune (issue : gmap string pyval) : outcome (gmap string pyval) :=
  for_each prune_item (map_to_list issue) issue.

(** ** [class Jiraclient] *)

Definition table_names : list string :=
  ["project"; "priority"; "issuetype"; "versions"; "fixversions";
   "components"; "resolutions"].

(** [__init__]: seven names, seven new and empty tables, no token.  The
    options and the files are those the process starts with. *)
Definition Jiraclient_init (o : Options) (fs : gmap string file) : world :=
  World o None ""
        (list_to_map (zip table_names (seq 0 7)))
        (list_to_map (map (fun r => (r, ∅)) (seq 0 7)))
        fs [] [] [].

(** [self.maps[name]] *)
Definition maps_getitem (name : string) : M nat := fun w =>
  match maps w !! name with
  | Some r => (Return r, w)
  | None => (Raise (KeyError name), w)
  end.

(** The table object behind a reference. *)
Definition table_at (r : nat) : M (gmap Z string) :=
  get (fun w => tables w !!! r).

(** [table[id] = label] on the object behind a reference. *)
Definition table_setitem (r : nat) (id : Z) (label : string) : M unit :=
  modify (fun w => set_tables (<[r := <[id := label]> (tables w !!! r)]> (tables w)) w).

(** [bool(d)] of a table that may be [None]. *)
Definition map_truth (d : option (gmap Z string)) : bool :=
  match d with
  | Some t => negb (bool_decide (t = ∅))
  | None => false
  end.

(** [attribute_id]: a key of a table, or the lower-cased text itself. *)
Inductive ident := IdInt (n : Z) | IdStr (s : string).

Definition ident_str (i : ident) : string :=
  match i with IdInt n => str_of_int n | IdStr s => s end.

(** [try: attr.pop(attr.index({'id':None}))] / [except Exception: pass] *)
Definition pop_sentinel (attr : list pyval) : list pyval :=
  match list_index id_None attr with
  | Return i => delete i attr
  | Raise _ => attr
  end.



(** ["%s/%s" % (self.options.jiraurl, uri)] *)
Definition full_uri (o : Options) (uri : string) : string :=
  fmt_s (jiraurl o) +:+ "/" +:+ uri.

(** The headers of [call_api]: the content type, and the token where there
    is one. *)
Definition headers_for (tok : option string) : list (string * string) :=
  match tok with
  | Some t => dict_set "Authorization" ("Basic " +:+ t)
                [("Content-Type", "application/json")]
  | None => [("Content-Type", "application/json")]
  end.

Section Client.

(** What the remote service answers to a request, what the user types at
    the password prompt, the umask of the process, and the formatted
    reading of the clock in [log_work]. *)
Variable transport : request -> response.
Variable getpass : string.
Variable umask : Z.
Variable utcnow : string.

(** [fd = open(p,'w'); fd.write(s); fd.close()]: an existing file keeps its
    mode, a new one gets [0666 & ~umask]. *)
Definition write_file (p : string) (s : string) : M unit :=
  modify (fun w =>
    let mode := match files w !! p with
                | Some f => st_mode f
                | None => Z.lor S_IFREG (Z.ldiff 438 umask)
                end in
    set_files (<[p := File mode s]> (files w)) w).

(** [call(headers=headers,payload=payload)] on the proxy. *)
Definition proxy_call (req : request) : M (option pyval) := fun w =>
  let w' := set_sent (sent w ++ [req]) w in
  match transport req with
  | Rejected => (Raise Unauthorized, w')
  | Failed msg => (Raise (TransportError msg), w')
  | Answered data => (Return data, w')
  end.

Definition call_api (method : http_method) (uri : string)
           (payload : option pyval) : M pyval :=
  o ← get options;
  let full := full_uri o uri in
  modify (set_proxy_uri full);;
  tok ← get token;
  let headers := headers_for tok in
  response ← try_except
    (log DEBUG ("calling " +:+ method_upper method +:+ " " +:+ full);;
     proxy_call (Request method full headers payload))
    (fun e =>
       match e with
       | Unauthorized =>
           Some (ex ← path_exists (sessionfile o);
                 (if ex : bool then unlink (sessionfile o) else mret tt);;
                 fatal "Login failed")
       | SystemExit _ => None
       | _ =>
           Some (fatal ("Unhandled API exception for method: " +:+ full
                        +:+ ": " +:+ exn_text e))
       end);
  match response with
  | Some data => mret data
  | None => mret PNone
  end.

Definition get_serverinfo : M pyval :=
  call_api GET "rest/api/latest/serverInfo" None.

(** In [self.maps[name][int(item['id'])] = str(item['name'].lower())] the
    right-hand side is evaluated first, then the table, then the key. *)
Definition get_project_versions (projectKey : string) : M unit :=
  let uri := "rest/api/latest/project" +:+ "/" +:+ projectKey +:+ "/"
             +:+ "versions" in
  data ← call_api GET uri None;
  items ← lift (py_iter data);
  for_each_M (fun item =>
    label ← lift (py_getitem item "name" ≫= py_lower_str);
    r ← maps_getitem "versions";
    id ← lift (py_getitem item "id" ≫= py_int);
    table_setitem r id label) items;;
  r ← maps_getitem "versions";
  modify (fun w => set_maps (<["fixversions" := r]> (maps w)) w).

Definition get_project_components (projectKey : string) : M unit :=
  let uri := "rest/api/latest/project" +:+ "/" +:+ projectKey +:+ "/"
             +:+ "components" in
  data ← call_api GET uri None;
  items ← lift (py_iter data);
  for_each_M (fun item =>
    label ← lift (py_getitem item "name" ≫= py_lower_str);
    r ← maps_getitem "components";
    id ← lift (py_getitem item "id" ≫= py_int);
    table_setitem r id label) items.


(** The bare [except:] takes every exception, [SystemExit] too. *)
Definition get_session : M unit :=
  try_except
    (call_api GET "rest/auth/latest/session" None;; mret tt)
    (fun _ =>
       Some (session ← get (fun w => sessionfile (options w));
             ex ← path_exists session;
             (if ex : bool then unlink session else mret tt);;
             fatal "Login failed")).

Definition read_password : M unit :=
  o ← get options;
  if negb (opt_truth (password o)) then
    print (Line "Please authenticate.");;
    modify (fun w => set_options (set_password (Some getpass) (options w)) w)
  else mret tt.

Definition check_auth : M unit :=
  session ← get (fun w => sessionfile (options w));
  ex ← path_exists session;
  (if ex : bool then
     mode ← stat_st_mode session;
     if negb (S_IMODE mode =? mode_600) then
       log ERROR ("session file " +:+ session
                  +:+ " is not mode 600, forcing new session");;
       unlink session
     else mret tt
   else mret tt);;
  ex' ← path_exists session;
  tok ← (if negb ex' then
           log DEBUG "make auth token";;
           o ← get options;
           (if negb (opt_truth (password o)) then read_password else mret tt);;
           o' ← get options;
           mret (b64encode (fmt_s (user o') +:+ ":" +:+ fmt_s (password o')))
         else
           log DEBUG "read auth token";;
           read_file session);
  modify (set_token (Some tok));;
  get_session;;
  write_file session tok;;
  chmod session mode_600.

(** [update_issue_obj] answers [None] where the source says [return], and
    the changed issue where it says [return issue]. *)
Definition update_issue_obj (issue : gmap string pyval) (key value : string)
  : M (option (gmap string pyval)) :=
  attr ← getattr issue key;
  mp ← get maps;
  found ←
    match mp !! lower key with
    | Some r =>
        attribute_map ← table_at r;
        attribute_id ← lift (find_key attribute_map (lower value));
        if negb (py_truth (PInt attribute_id)) then
          log DEBUG ("no id found for " +:+ lower value);;
          mret None
        else mret (Some (Some attribute_map, IdInt attribute_id))
    | None =>
        log DEBUG ("no map found for " +:+ lower key);;
        mret (Some (None, IdStr (lower value)))
    end;
  match found with
  | None => mret None
  | Some (attribute_map, attribute_id) =>
      mret (Some
        match attr with
        | PStr _ => <[key := PStr value]> issue
        | PList l =>
            if String.eqb key "labels" then
              <[key := PList (l ++ [PStr value])]> issue
            else
              <[key := PList (pop_sentinel l ++
                              [PDict [("id", PStr (ident_str attribute_id))]])]>
                issue
        | PDict item =>
            let item1 :=
              if has_key "id" item then
                if map_truth attribute_map
                then dict_set "id" (PStr (ident_str attribute_id)) item
                else dict_set "id" (PStr value) item
              else item in
            let item2 :=
              if has_key "name" item1
              then dict_set "name" (PStr value) item1
              else item1 in
            <[key := PDict item2]> issue
        | _ => issue
        end)
  end.


End Client.

(** ** The duration grammar in the words of the specification *)

Definition newline : string := String "010" EmptyString.




(** ** A sample run *)

(** A project with two components and two versions, used where a statement
    is tried on concrete data. *)
Definition sample_options : Options :=
  MkOptions "/home/u/.jira-session" (Some "https://jira.example.org")
            (Some "u") (Some "secret") false (Some "done") (Some "2h") None.

Definition sample_components : pyval :=
  PList [PDict [("id", PStr "10001"); ("name", PStr "Network")];
         PDict [("id", PStr "10002"); ("name", PStr "Storage")]].

Definition sample_versions : pyval :=
  PList [PDict [("id", PStr "20001"); ("name", PStr "1.0")];
         PDict [("id", PStr "20002"); ("name", PStr "2.0-RC")]].

Definition sample_transport (req : request) : response :=
  if String.eqb (req_uri req)
       "https://jira.example.org/rest/api/latest/project/INFOSYS/components"
  then Answered (Some sample_components)
  else if String.eqb (req_uri req)
       "https://jira.example.org/rest/api/latest/project/INFOSYS/versions"
  then Answered (Some sample_versions)
  else Answered (Some (PDict [])).

(** The client after it has fetched the versions and the components. *)
Definition sample_world : world :=
  Eval vm_compute in
    snd ((get_project_versions sample_transport "INFOSYS";;
          get_project_components sample_transport "INFOSYS")
           (Jiraclient_init sample_options ∅)).

(** The client after [get_project_versions] alone. *)
Definition sample_world_versions : world :=
  Eval vm_compute in
    snd (get_project_versions sample_transport "INFOSYS"
           (Jiraclient_init sample_options ∅)).


(** Resolving a label through the name of a table, and writing to and
    reading from a table through names, as [update_issue_obj] and the
    [get_...] methods do with [self.maps[name]]. *)
Definition resolve_by_name (name : string) (label : string) : M Z :=
  r ← maps_getitem name;
  t ← table_at r;
  lift (find_key t label).

Definition write_then_read (written read : string) (id : Z) (label : string)
  : M (gmap Z string) :=
  r ← maps_getitem written;
  table_setitem r id label;;
  r' ← maps_getitem read;
  table_at r'.

(** A client that starts with a session file left behind with mode 644, and
    a service that rejects every request. *)
Definition stale_world : world :=
  Jiraclient_init sample_options
    {["/home/u/.jira-session" := File (Z.lor S_IFREG 420) "c3RhbGU6dG9rZW4="]}.

Definition rejecting_transport (req : request) : response := Rejected.

(** The request that [call_api] hands to the transport in a given world, and
    the world once the request is out: the proxy points at the address, the
    call is logged, and the request is recorded. *)
Definition request_of (w : world) (method : http_method) (uri : string)
           (payload : option pyval) : request :=
  Request method (full_uri (options w) uri) (headers_for (token w)) payload.

Definition after_call (w : world) (method : http_method) (uri : string)
           (payload : option pyval) : world :=
  set_sent (sent w ++ [request_of w method uri payload])
    (set_logged (logged w ++ [(DEBUG, "calling " +:+ method_upper method
                                        +:+ " " +:+ full_uri (options w) uri)])
       (set_proxy_uri (full_uri (options w) uri) w)).

(** The token made from user and password, with the password asked for
    when the options have none. *)
Definition fresh_credential (getpass : string) (w : world) : string :=
  let pw := if opt_truth (password (options w))
            then fmt_s (password (options w)) else getpass in
  b64encode (fmt_s (user (options w)) +:+ ":" +:+ pw).

(** The token that [check_auth] settles on in a given world: what the
    session file holds when it is there with mode 600, and the fresh token
    otherwise. *)
Definition credential (getpass : string) (w : world) : string :=
  match files w !! sessionfile (options w) with
  | Some f => if S_IMODE (st_mode f) =? mode_600 then content f
              else fresh_credential getpass w
  | None => fresh_credential getpass w
  end.

(** The request by which [get_session] tries a token. *)
Definition session_request (w : world) (tok : string) : request :=
  Request GET (full_uri (options w) "rest/auth/latest/session")
          (headers_for (Some tok)) None.

(** The values that the loop of [create_issue] lets through. *)
Definition kept (v : pyval) : bool :=
  py_truth v && negb (py_eq v id_None) && negb (py_eq v list_id_None).

(** ** The other methods of [Jiraclient] *)

(** [v[i]] with an integer index. *)
Definition py_getitem_int (v : pyval) (i : nat) : outcome pyval :=
  match v with
  | PList l =>
      match l !! i with
      | Some x => Return x
      | None => Raise (IndexError "list index out of range")
      end
  | PStr s =>
      match String.get i s with
      | Some c => Return (PStr (String c EmptyString))
      | None => Raise (IndexError "string index out of range")
      end
  | PDict _ => Raise (KeyError (str_of_int (Z.of_nat i)))
  | PNone => Raise (TypeError "'NoneType' object has no attribute '__getitem__'")
  | PInt _ => Raise (TypeError "'int' object has no attribute '__getitem__'")
  end.

Section Methods.

Variable transport : request -> response.
Variable getpass : string.
Variable umask : Z.

Definition get_project_id (projectKey : string) : M unit :=
  let uri := "rest/api/latest/project" +:+ "/" +:+ projectKey in
  data ← call_api transport GET uri None;
  let label := lower projectKey in
  r ← maps_getitem "project";
  id ← lift (py_getitem data "id" ≫= py_int);
  table_setitem r id label.

Definition get_issue_types (projectKey : string) : M unit :=
  check_auth transport getpass umask;;
  let uri := "rest/api/latest/issue/createmeta" +:+ "?projectKeys="
             +:+ projectKey in
  data ← call_api transport GET uri None;
  issuetypes ← lift (projects ← py_getitem data "projects";
                     project ← py_getitem_int projects 0;
                     py_getitem project "issuetypes");
  items ← lift (py_iter issuetypes);
  for_each_M (fun item =>
    label ← lift (py_getitem item "name" ≫= py_lower_str);
    r ← maps_getitem "issuetype";
    id ← lift (py_getitem item "id" ≫= py_int);
    table_setitem r id label) items.

Definition get_resolutions : M unit :=
  data ← call_api transport GET "rest/api/latest/resolution" None;
  items ← lift (py_iter data);
  for_each_M (fun item =>
    label ← lift (py_getitem item "name" ≫= py_lower_str);
    r ← maps_getitem "resolutions";
    id ← lift (py_getitem item "id" ≫= py_int);
    table_setitem r id label) items.

Definition get_priorities : M unit :=
  data ← call_api transport GET "rest/api/latest/priority" None;
  items ← lift (py_iter data);
  for_each_M (fun item =>
    label ← lift (py_getitem item "name" ≫= py_lower_str);
    r ← maps_getitem "priority";
    id ← lift (py_getitem item "id" ≫= py_int);
    table_setitem r id label) items.

Definition get_issue (issueID : string) : M pyval :=
  call_api transport GET ("rest/api/latest/issue/" +:+ issueID) None.

Definition delete_issue (issueID : string) : M unit :=
  let uri := "rest/api/latest/issue/" +:+ issueID +:+ "?deleteSubtasks" in
  call_api transport DELETE uri None;;
  info ← get_serverinfo transport;
  baseUrl ← lift (py_getitem info "baseUrl");
  print (Formatted "Deleted %s/browse/%s" [baseUrl; PStr issueID]).

(** The resolution is looked up as it is given: it is not lower-cased. *)
Definition resolve_issue (issueID resolution : string) : M pyval :=
  r ← maps_getitem "resolutions";
  table ← table_at r;
  resolution_id ← lift (find_key table resolution);
  let uri := "rest/api/latest/issue/" +:+ issueID +:+ "/transitions" in
  let payload := PDict [("id", PInt resolution_id)] in
  result ← call_api transport POST uri (Some payload);
  info ← get_serverinfo transport;
  baseUrl ← lift (py_getitem info "baseUrl");
  print (Formatted "Resolved %s/browse/%s" [baseUrl; PStr issueID]);;
  print (Pretty result);;
  mret result.

Definition display_issue (issueID : string) : M unit :=
  result ← call_api transport GET ("rest/api/latest/issue/" +:+ issueID) None;
  print (Pretty result).

Definition add_comment (issueID comment : string) : M pyval :=
  let uri := "rest/api/latest/issue/" +:+ issueID +:+ "/comment" in
  call_api transport POST uri (Some (PDict [("body", PStr comment)])).

Definition get_issue_links (issueID : string) : M pyval :=
  data ← call_api transport GET ("rest/api/latest/issue/" +:+ issueID) None;
  lift (fields ← py_getitem data "fields"; py_getitem fields "issuelinks").

End Methods.

(** ** A second sample: a service that answers every method *)

Definition full_answers : list (string * pyval) :=
  [("https://jira.example.org/rest/api/latest/project/INFOSYS",
    PDict [("id", PStr "10000"); ("key", PStr "INFOSYS")]);
   ("https://jira.example.org/rest/api/latest/issue/createmeta?projectKeys=INFOSYS",
    PDict [("projects",
            PList [PDict [("issuetypes",
                           PList [PDict [("id", PStr "1"); ("name", PStr "Bug")];
                                  PDict [("id", PStr "3"); ("name", PStr "Task")]])]])]);
   ("https://jira.example.org/rest/api/latest/project/INFOSYS/versions",
    sample_versions);
   ("https://jira.example.org/rest/api/latest/project/INFOSYS/components",
    sample_components);
   ("https://jira.example.org/rest/api/latest/resolution",
    PList [PDict [("id", PStr "1"); ("name", PStr "Fixed")];
           PDict [("id", PStr "2"); ("name", PStr "Duplicate")]]);
   ("https://jira.example.org/rest/api/latest/priority",
    PList [PDict [("id", PStr "1"); ("name", PStr "Blocker")];
           PDict [("id", PStr "3"); ("name", PStr "Major")]]);
   ("https://jira.example.org/rest/api/latest/serverInfo",
    PDict [("baseUrl", PStr "https://jira.example.org")]);
   ("https://jira.example.org/rest/api/latest/issue",
    PDict [("key", PStr "INFOSYS-7")])].

Definition full_transport (req : request) : response :=
  match dict_get (req_uri req) full_answers with
  | Some data => Answered (Some data)
  | None => Answered (Some (PDict []))
  end.

(** The client once it has fetched all its tables, in the order of
    [create_issue_obj]. *)
Definition full_world : world :=
  Eval vm_compute in
    snd ((get_project_id full_transport "INFOSYS";;
          get_issue_types full_transport "typed" 18 "INFOSYS";;
          get_project_versions full_transport "INFOSYS";;
          get_project_components full_transport "INFOSYS";;
          get_resolutions full_transport;;
          get_priorities full_transport)
           (Jiraclient_init sample_options ∅)).

(** A new client whose password option is the empty string. *)
Definition empty_password_world : world :=
  Jiraclient_init
    (MkOptions "/home/u/.jira-session" (Some "https://jira.example.org")
               (Some "u") (Some "") false None None None)
    ∅.

(** A new client after one [check_auth]. *)
Definition full_world_session : world :=
  Eval vm_compute in
    snd (check_auth full_transport "typed" 18 (Jiraclient_init sample_options ∅)).

(** A service that is down: every request fails with a transport error. *)
Definition failing_transport (req : request) : response :=
  Failed "Connection refused".

(** A service that knows no project: every answer is [{"projects": []}]. *)
Definition no_project_transport (req : request) : response :=
  Answered (Some (PDict [("projects", PList [])])).

(** A new client after one [check_auth] against that service. *)
Definition no_project_session : world :=
  Eval vm_compute in
    snd (check_auth no_project_transport "typed" 18
           (Jiraclient_init sample_options ∅)).

(** A service whose answers are no JSON. *)
Definition mute_transport (req : request) : response := Answered None.

(** A client in whose components table one entry has the identifier 0. *)
Definition zero_id_world : world :=
  Eval vm_compute in
    snd (table_setitem 5 0 "legacy" sample_world).


(** Every label of every table is in lower case. *)
Definition tables_lower (w : world) : Prop :=
  forall r t id label,
    tables w !! r = Some t -> t !! id = Some label -> lower label = label.

(** * Properties *)

(** ** Lookup tables *)

Lemma elem_of_matching_keys (self : gmap Z string) (val : string) (k : Z) :
  k ∈ (map_to_list self ≫= fun kv =>
         if String.eqb (snd kv) val then [fst kv] else [])
  <-> self !! k = Some val.
Proof.
  rewrite list_elem_of_bind. split.
  - intros [[k' v] [Hin Hkv]]. simpl in Hin.
    destruct (String.eqb v val) eqn:E; [|by apply elem_of_nil in Hin].
    apply String.eqb_eq in E. apply list_elem_of_singleton in Hin. subst.
    by apply elem_of_map_to_list.
  - intros H. exists (k, val). simpl. rewrite String.eqb_refl.
    split; [by apply list_elem_of_singleton | by apply elem_of_map_to_list].
Qed.

Lemma find_key_Return (self : gmap Z string) (val : string) (k : Z) :
  find_key self val = Return k -> self !! k = Some val.
Proof.
  unfold find_key. destruct (last _) as [k'|] eqn:E; [|done].
  intros [= ->]. apply elem_of_matching_keys. by eapply last_Some_elem_of.
Qed.

Lemma find_key_miss (self : gmap Z string) (val : string) :
  (forall k, self !! k <> Some val) ->
  find_key self val = Raise (IndexError "pop from empty list").
Proof.
  intros H. unfold find_key. destruct (last _) as [k|] eqn:E; [|done].
  apply last_Some_elem_of, elem_of_matching_keys in E. by destruct (H k).
Qed.

Lemma find_key_hit (self : gmap Z string) (val : string) (k : Z) :
  self !! k = Some val -> exists k', find_key self val = Return k'.
Proof.
  intros H. unfold find_key. destruct (last _) as [k'|] eqn:E; [by eexists|].
  apply last_None in E. apply elem_of_matching_keys in H.
  rewrite E in H. by apply elem_of_nil in H.
Qed.

(** C8. In a table whose labels are distinct, the label stored for an
    identifier leads back to that identifier:
    [find_key(find_value(id)) == id] for every [id] of the table. *)
Theorem find_key_find_value_roundtrip (self : gmap Z string) (id : Z) :
  (forall i j label, self !! i = Some label -> self !! j = Some label -> i = j) ->
  is_Some (self !! id) ->
  find_value self id ≫= find_key self = Return id.
Proof.
  intros Huniq [label Hid]. unfold find_value. rewrite Hid. simpl.
  destruct (find_key_hit self label id Hid) as [k Hk]. rewrite Hk.
  f_equal. apply find_key_Return in Hk. by eapply Huniq.
Qed.

Lemma find_key_find_value_roundtrip_witness :
  find_value ({[10001 := "network"; 10002 := "storage"]} : gmap Z string) 10002
    ≫= find_key {[10001 := "network"; 10002 := "storage"]} = Return 10002.
Proof.
  apply find_key_find_value_roundtrip.
  - intros i j label Hi Hj.
    apply lookup_insert_Some in Hi as [[<- <-]|[? Hi]];
      apply lookup_insert_Some in Hj as [[<- Hj]|[? Hj]]; try done.
    + apply lookup_singleton_Some in Hj as [<- ?]. done.
    + apply lookup_singleton_Some in Hi as [<- <-]. done.
    + apply lookup_singleton_Some in Hi as [<- <-].
      apply lookup_singleton_Some in Hj as [<- ?]. done.
  - by eexists.
Defined.

(** ** Finalization *)

Lemma falsy_not_sentinel (v : pyval) :
  py_truth v = false -> py_eq v id_None = false /\ py_eq v list_id_None = false.
Proof. destruct v as [| s | z | [|x l] | [|[k x] d]]; simpl; try done. Qed.

Lemma id_None_not_list (v : pyval) :
  py_eq v id_None = true -> py_eq v list_id_None = false.
Proof. destruct v; simpl; done. Qed.

Lemma prune_item_spec (issue : gmap string pyval) (k : string) (v : pyval) :
  issue !! k = Some v ->
  prune_item issue (k, v) = Return (if kept v then issue else delete k issue).
Proof.
  intros Hk. unfold prune_item, kept, dict_pop.
  destruct (py_truth v) eqn:Ht; simpl.
  - destruct (py_eq v id_None) eqn:E1; simpl.
    + rewrite Hk. simpl. by rewrite (id_None_not_list v E1).
    + destruct (py_eq v list_id_None) eqn:E2; simpl; [by rewrite Hk | done].
  - rewrite Hk. simpl.
    destruct (falsy_not_sentinel v Ht) as [-> ->]. done.
Qed.

Lemma for_each_prune_item (l : list (string * pyval)) :
  forall cur : gmap string pyval,
    NoDup (l.*1) ->
    (forall k v, (k, v) ∈ l -> cur !! k = Some v) ->
    exists out,
      for_each prune_item l cur = Return out /\
      forall k, out !! k =
                match cur !! k with
                | Some v =>
                    if decide (k ∈ l.*1)
                    then (if kept v then Some v else None)
                    else Some v
                | None => None
                end.
Proof.
  induction l as [|[k v] l IH]; intros cur Hnd Hin; cbn [for_each].
  - exists cur. split; [done|]. intros k. by destruct (cur !! k).
  - apply NoDup_cons in Hnd as [Hk Hnd].
    rewrite (prune_item_spec cur k v) by (apply Hin; left).
    cbn [mbind outcome_bind].
    set (cur1 := if kept v then cur else delete k cur).
    destruct (IH cur1 Hnd) as (out & Hout & Hlook).
    { intros k' v' Hin'. assert (k' <> k).
      { intros ->. apply Hk. apply list_elem_of_fmap. by exists (k, v'). }
      unfold cur1. destruct (kept v).
      - apply Hin. by right.
      - rewrite lookup_delete_ne by done. apply Hin. by right. }
    exists out. split; [done|]. intros k'. rewrite Hlook.
    destruct (decide (k' = k)) as [->|Hne].
    + rewrite (Hin k v) by left. unfold cur1.
      rewrite decide_True by left.
      destruct (kept v) eqn:Hv.
      * rewrite (Hin k v) by left. by rewrite decide_False.
      * by rewrite lookup_delete_eq.
    + replace (cur1 !! k') with (cur !! k').
      2:{ unfold cur1. destruct (kept v); [done|]. by rewrite lookup_delete_ne. }
      destruct (cur !! k'); [|done].
      destruct (decide (k' ∈ l.*1)) as [Hl|Hl].
      * by rewrite decide_True by by right.
      * rewrite decide_False; [done|].
        intros [?|?]%elem_of_cons; done.
Qed.

(** The loop never raises, and it is a filter. *)
Lemma prune_filter (issue : gmap string pyval) :
  prune issue = Return (filter (fun kv => kept (snd kv) = true) issue).
Proof.
  unfold prune.
  destruct (for_each_prune_item (map_to_list issue) issue) as (out & -> & Hout).
  - apply NoDup_fst_map_to_list.
  - intros k v. apply elem_of_map_to_list.
  - f_equal. apply map_eq. intros k. rewrite Hout.
    destruct (issue !! k) as [v|] eqn:Hk.
    + rewrite decide_True.
      2:{ apply list_elem_of_fmap. exists (k, v).
          split; [done | by apply elem_of_map_to_list]. }
      destruct (kept v) eqn:Hv; symmetry.
      * apply map_lookup_filter_Some. done.
      * apply map_lookup_filter_None. right. intros v' Hv'. simpl.
        rewrite Hk in Hv'. injection Hv' as <-. by rewrite Hv.
    + symmetry. apply map_lookup_filter_None. left. done.
Qed.


(** ** Running [call_api] *)

Section ClientFacts.

Variable transport : request -> response.

Lemma call_api_run method uri payload w :
  call_api transport method uri payload w =
    let w1 := after_call w method uri payload in
    match transport (request_of w method uri payload) with
    | Answered data => (Return (default PNone data), w1)
    | Rejected =>
        (Raise (SystemExit 1),
         set_logged (logged w1 ++ [(CRITICAL, "Login failed")])
           (set_files (delete (sessionfile (options w)) (files w)) w1))
    | Failed msg =>
        (Raise (SystemExit 1),
         set_logged (logged w1 ++
                     [(CRITICAL, "Unhandled API exception for method: "
                                 +:+ full_uri (options w) uri
                                 +:+ ": " +:+ msg)]) w1)
    end.
Proof.
  unfold call_api, after_call, request_of, try_except, proxy_call, fatal,
    path_exists, unlink, log, get, modify, raise.
  unfold mbind, M_bind, mret, M_ret. cbn.
  destruct (transport _) as [| msg | [data|]]; cbn; try reflexivity.
  destruct (files w !! sessionfile (options w)) eqn:E; cbn; rewrite ?E; cbn.
  - reflexivity.
  - rewrite delete_id by done. by destruct w.
Qed.

End ClientFacts.

(** ** C1 *)

Local Opaque call_api.


(** ** [update_issue_obj] *)

Lemma py_eq_id_None_iff (x : pyval) : py_eq x id_None = true <-> x = id_None.
Proof.
  split; [|by intros ->].
  destruct x as [| | | |d]; try done. simpl.
  destruct d as [|[k y] [|? ?]]; try done. simpl.
  destruct (String.eqb k "id") eqn:E; [|done].
  apply String.eqb_eq in E as ->. by destruct y.
Qed.

Lemma pop_sentinel_absent (l : list pyval) :
  id_None ∉ l -> pop_sentinel l = l.
Proof.
  unfold pop_sentinel. intros H.
  assert (Hr : exists e, list_index id_None l = Raise e).
  { induction l as [|y l IH]; simpl; [by eexists|].
    destruct (py_eq y id_None) eqn:E.
    - apply py_eq_id_None_iff in E as ->. destruct H. by left.
    - destruct IH as [e ->]; [|by eexists]. intros ?. apply H. by right. }
  by destruct Hr as [e ->].
Qed.

Lemma pop_sentinel_present (l1 l2 : list pyval) :
  id_None ∉ l1 -> pop_sentinel (l1 ++ id_None :: l2) = l1 ++ l2.
Proof.
  unfold pop_sentinel. intros H.
  assert (Hr : list_index id_None (l1 ++ id_None :: l2) = Return (length l1)).
  { induction l1 as [|y l1 IH]; simpl; [done|].
    destruct (py_eq y id_None) eqn:E.
    - apply py_eq_id_None_iff in E as ->. destruct H. by left.
    - rewrite IH; [done|]. intros ?. apply H. by right. }
  rewrite Hr. clear. induction l1 as [|y l1 IH]; simpl; [done|].
  f_equal. apply IH.
Qed.

(** What [update_issue_obj] does once the table of the field has given a
    non-zero identifier. *)
Lemma update_issue_obj_resolved issue key value w attr r id :
  issue !! key = Some attr ->
  maps w !! lower key = Some r ->
  find_key (tables w !!! r) (lower value) = Return id ->
  id <> 0 ->
  update_issue_obj issue key value w =
    (Return (Some
       match attr with
       | PStr _ => <[key := PStr value]> issue
       | PList l =>
           if String.eqb key "labels" then
             <[key := PList (l ++ [PStr value])]> issue
           else
             <[key := PList (pop_sentinel l ++
                             [PDict [("id", PStr (str_of_int id))]])]> issue
       | PDict item =>
           let item1 :=
             if has_key "id" item
             then dict_set "id" (PStr (str_of_int id)) item
             else item in
           let item2 :=
             if has_key "name" item1
             then dict_set "name" (PStr value) item1
             else item1 in
           <[key := PDict item2]> issue
       | _ => issue
       end), w).
Proof.
  intros Hattr Hr Hid Hnz.
  unfold update_issue_obj, getattr, table_at, lift, get, log, modify.
  unfold mbind, M_bind, mret, M_ret. rewrite Hattr. cbn. rewrite Hr. cbn.
  rewrite Hid. cbn.
  destruct (id =? 0) eqn:E; [apply Z.eqb_eq in E; done|]. cbn.
  assert (Hne : bool_decide (tables w !!! r = ∅) = false).
  { apply bool_decide_eq_false. intros Hempty.
    apply find_key_Return in Hid. rewrite Hempty in Hid.
    by rewrite lookup_empty in Hid. }
  rewrite Hne. cbn. reflexivity.
Qed.

(** A label that the table does not hold makes [find_key] raise, and
    nothing between [find_key] and the top of the program takes the
    exception. *)
Lemma update_issue_obj_miss issue key value w attr r :
  issue !! key = Some attr ->
  maps w !! lower key = Some r ->
  (forall k, (tables w !!! r) !! k <> Some (lower value)) ->
  update_issue_obj issue key value w =
    (Raise (IndexError "pop from empty list"), w).
Proof.
  intros Hattr Hr Hmiss.
  unfold update_issue_obj, getattr, table_at, lift, get, log, modify.
  unfold mbind, M_bind, mret, M_ret. rewrite Hattr. cbn. rewrite Hr. cbn.
  by rewrite (find_key_miss _ _ Hmiss).
Qed.

(** C2. The specification has a value which is no label of the table of its
    field skipped quietly.  The code does not do so: in the sample
    project, whose components are "network" and "storage", setting the
    component "Printing" on a new issue ends in [IndexError], raised by
    [find_key] when it pops from an empty list; the guard
    [if not attribute_id] and its debug message are never reached, and
    nothing is logged. *)
Theorem update_issue_obj_lookup_miss_raises :
  update_issue_obj Issue_init "components" "Printing" sample_world =
    (Raise (IndexError "pop from empty list"), sample_world).
Proof.
  apply (update_issue_obj_miss _ _ _ _ list_id_None 5%nat).
  - reflexivity.
  - vm_compute. reflexivity.
  - intros k Hk.
    assert (Hin : (k, lower "Printing") ∈ map_to_list (tables sample_world !!! 5%nat))
      by by apply elem_of_map_to_list.
    vm_compute in Hin.
    apply elem_of_cons in Hin as [[=]|Hin].
    apply elem_of_cons in Hin as [[=]|Hin].
    by apply elem_of_nil in Hin.
Qed.

(** C7. On [versions], [fixVersions] and [components], a value that the
    table resolves to a non-zero identifier [id] takes the first
    [{"id": None}] out of the list, where there is one, and puts
    [{"id": str(id)}] at its end; nothing else changes.  In particular two
    values that resolve to 10001 and then 10002, set on a new issue, leave
    [components] as [[{"id":"10001"},{"id":"10002"}]] in what
    [create_issue] sends. *)
Theorem update_issue_obj_reference_list :
  (forall issue key value w l r id,
      key ∈ ["versions"; "fixVersions"; "components"] ->
      issue !! key = Some (PList l) ->
      maps w !! lower key = Some r ->
      find_key (tables w !!! r) (lower value) = Return id ->
      id <> 0 ->
      exists l',
        update_issue_obj issue key value w =
          (Return (Some (<[key := PList (l' ++ [PDict [("id", PStr (str_of_int id))]])]>
                           issue)), w) /\
        (id_None ∉ l -> l' = l) /\
        (forall l1 l2, l = l1 ++ id_None :: l2 -> id_None ∉ l1 -> l' = l1 ++ l2))
  /\
  (forall w r v1 v2,
      maps w !! "components" = Some r ->
      find_key (tables w !!! r) (lower v1) = Return 10001 ->
      find_key (tables w !!! r) (lower v2) = Return 10002 ->
      exists issue1 issue2 fields,
        update_issue_obj Issue_init "components" v1 w = (Return (Some issue1), w) /\
        update_issue_obj issue1 "components" v2 w = (Return (Some issue2), w) /\
        prune issue2 = Return fields /\
        fields !! "components" =
          Some (PList [PDict [("id", PStr "10001")]; PDict [("id", PStr "10002")]])).
Proof.
  split.
  - intros issue key value w l r id Hkey Hattr Hr Hid Hnz.
    exists (pop_sentinel l). split; [|split].
    + rewrite (update_issue_obj_resolved _ _ _ _ _ _ _ Hattr Hr Hid Hnz).
      assert (String.eqb key "labels" = false) as ->; [|done].
      repeat (apply elem_of_cons in Hkey as [->|Hkey]; [done|]).
      by apply elem_of_nil in Hkey.
    + intros. by apply pop_sentinel_absent.
    + intros l1 l2 -> ?. by apply pop_sentinel_present.
  - intros w r v1 v2 Hr H1 H2.
    eexists _, _, _. split; [|split; [|split]].
    + eapply update_issue_obj_resolved; [reflexivity|exact Hr|exact H1|done].
    + eapply update_issue_obj_resolved; [|exact Hr|exact H2|done].
      apply lookup_insert_eq.
    + apply prune_filter.
    + apply map_lookup_filter_Some. split; [|reflexivity].
      cbn. rewrite insert_insert_eq. rewrite lookup_insert_eq. reflexivity.
Qed.

Lemma update_issue_obj_reference_list_witness :
  (exists l',
      update_issue_obj Issue_init "fixVersions" "2.0-RC" sample_world =
        (Return (Some (<["fixVersions" := PList (l' ++ [PDict [("id", PStr (str_of_int 20002))]])]>
                         Issue_init)), sample_world) /\
      (id_None ∉ [id_None] -> l' = [id_None]) /\
      (forall l1 l2, [id_None] = l1 ++ id_None :: l2 -> id_None ∉ l1 -> l' = l1 ++ l2))
  /\
  (exists issue1 issue2 fields,
      update_issue_obj Issue_init "components" "Network" sample_world
        = (Return (Some issue1), sample_world) /\
      update_issue_obj issue1 "components" "Storage" sample_world
        = (Return (Some issue2), sample_world) /\
      prune issue2 = Return fields /\
      fields !! "components" =
        Some (PList [PDict [("id", PStr "10001")]; PDict [("id", PStr "10002")]])).
Proof.
  split.
  - apply (proj1 update_issue_obj_reference_list) with (r := 3%nat).
    + right; left.
    + reflexivity.
    + vm_compute; reflexivity.
    + vm_compute; reflexivity.
    + lia.
  - apply (proj2 update_issue_obj_reference_list) with (r := 5%nat).
    + vm_compute; reflexivity.
    + vm_compute; reflexivity.
    + vm_compute; reflexivity.
Defined.

(** ** C9 *)

Lemma Jiraclient_init_no_labels_table o fs :
  maps (Jiraclient_init o fs) !! "labels" = None.
Proof. reflexivity. Qed.

Lemma labels_append issue value w l :
  issue !! "labels" = Some (PList l) ->
  maps w !! "labels" = None ->
  update_issue_obj issue "labels" value w =
    (Return (Some (<["labels" := PList (l ++ [PStr value])]> issue)),
     set_logged (logged w ++ [(DEBUG, "no map found for labels")]) w).
Proof.
  intros Hattr Hmap.
  unfold update_issue_obj, getattr, table_at, lift, get, log, modify.
  unfold mbind, M_bind, mret, M_ret. rewrite Hattr.
  change (lower "labels") with "labels". cbv beta. rewrite Hmap.
  reflexivity.
Qed.

(** C9, as the code has it.  [labels] has no table, and a set on it puts the
    value at the end of the list as it was given, capitals included; the
    lower-cased text is computed and not used.  One debug message is
    logged, and the tables are not read. *)
Theorem update_issue_obj_labels_raw issue value w l :
  issue !! "labels" = Some (PList l) ->
  maps w !! "labels" = None ->
  update_issue_obj issue "labels" value w =
    (Return (Some (<["labels" := PList (l ++ [PStr value])]> issue)),
     set_logged (logged w ++ [(DEBUG, "no map found for labels")]) w).
Proof. apply labels_append. Qed.

Lemma update_issue_obj_labels_raw_witness :
  update_issue_obj Issue_init "labels" "Urgent" sample_world =
    (Return (Some (<["labels" := PList ([] ++ [PStr "Urgent"])]> Issue_init)),
     set_logged (logged sample_world ++ [(DEBUG, "no map found for labels")])
                sample_world).
Proof.
  apply update_issue_obj_labels_raw.
  - reflexivity.
  - vm_compute; reflexivity.
Defined.

(** C9, as the specification states it, fails on the value "Urgent": what
    is appended to [labels] is "Urgent" itself, which is not its lower-cased
    form "urgent". *)
Lemma update_issue_obj_labels_lower_counterexample :
  fst (update_issue_obj Issue_init "labels" "Urgent" sample_world) =
    Return (Some (<["labels" := PList [PStr "Urgent"]]> Issue_init)) /\
  lower "Urgent" = "urgent" /\
  PList [PStr "Urgent"] <> PList ([] ++ [PStr (lower "Urgent")]).
Proof.
  split; [|split].
  - rewrite (labels_append Issue_init "Urgent" sample_world [])
      by (vm_compute; reflexivity).
    reflexivity.
  - reflexivity.
  - discriminate.
Qed.

(** ** Durations *)











(** ** [log_work] *)

Section WorklogFacts.

Variable transport : request -> response.
Variable utcnow : string.




End WorklogFacts.






(** ** Sessions *)

Section SessionFacts.

Variable transport : request -> response.
Variable getpass : string.
Variable umask : Z.

(** [get_session] either comes back with nothing changed but the record of
    the call, or ends the process: the session file is gone, "Login
    failed" is logged, and no second request is made. *)
Lemma get_session_run w :
  let req := request_of w GET "rest/auth/latest/session" None in
  let w1 := after_call w GET "rest/auth/latest/session" None in
  get_session transport w =
    match transport req with
    | Answered _ => (Return tt, w1)
    | Rejected =>
        (Raise (SystemExit 1),
         set_logged (logged w1 ++ [(CRITICAL, "Login failed");
                                   (CRITICAL, "Login failed")])
           (set_files (delete (sessionfile (options w)) (files w)) w1))
    | Failed msg =>
        (Raise (SystemExit 1),
         set_logged (logged w1 ++
                     [(CRITICAL, "Unhandled API exception for method: "
                                 +:+ full_uri (options w) "rest/auth/latest/session"
                                 +:+ ": " +:+ msg);
                      (CRITICAL, "Login failed")])
           (set_files (delete (sessionfile (options w)) (files w)) w1))
    end.
Proof.
  unfold get_session, try_except, fatal, path_exists, unlink, log, get,
    modify, raise.
  unfold mbind, M_bind, mret, M_ret. rewrite call_api_run. cbv zeta.
  destruct (transport _) as [| msg | data]; cbn.
  - rewrite lookup_delete_eq. cbn. by rewrite <- app_assoc.
  - destruct (files w !! sessionfile (options w)) eqn:E; cbn;
      rewrite ?E; cbn; rewrite <- !app_assoc; [done|].
    by rewrite delete_id.
  - done.
Qed.

Local Opaque get_session.

Ltac sim :=
  cbn -[Z.ldiff Z.lor Z.land Z.eqb b64encode S_IMODE mode_600 String.append
        lookup insert delete full_uri headers_for].
Ltac sim_files E :=
  repeat (progress (sim; rewrite ?E, ?lookup_delete_eq, ?lookup_insert_eq)).
Ltac sim_files2 E E' :=
  repeat (progress (sim; rewrite ?E, ?E', ?lookup_delete_eq, ?lookup_insert_eq)).
Ltac unfold_check_auth :=
  unfold check_auth, read_password, write_file, chmod, path_exists,
    stat_st_mode, unlink, read_file, log, print, get, modify;
  unfold mbind, M_bind, mret, M_ret.

Lemma full_uri_set_password pw o uri :
  full_uri (set_password pw o) uri = full_uri o uri.
Proof. reflexivity. Qed.

Lemma S_IMODE_chmod (m : Z) :
  S_IMODE (Z.lor (Z.ldiff m 4095) mode_600) = mode_600.
Proof.
  unfold S_IMODE. rewrite Z.land_lor_distr_l, Z.ldiff_land.
  rewrite <- Z.land_assoc, (Z.land_comm (Z.lnot 4095)), Z.land_lnot_diag.
  by rewrite Z.land_0_r.
Qed.

(** A rejected token ends the run at its first and only request. *)
Lemma check_auth_rejected_run w :
  transport (session_request w (credential getpass w)) = Rejected ->
  exists w',
    check_auth transport getpass umask w = (Raise (SystemExit 1), w') /\
    files w' !! sessionfile (options w) = None /\
    (CRITICAL, "Login failed") ∈ logged w' /\
    token w' = Some (credential getpass w) /\
    sent w' = sent w ++ [session_request w (credential getpass w)].
Proof.
  intros H. unfold credential, fresh_credential, session_request in *.
  unfold_check_auth.
  destruct (files w !! sessionfile (options w)) as [f|] eqn:Ef; sim_files Ef.
  1: destruct (S_IMODE (st_mode f) =? mode_600) eqn:Em; sim_files Ef.
  2,3: destruct (opt_truth (password (options w))) eqn:Ep; sim_files2 Ef Ep.
  all: rewrite get_session_run; cbv zeta; unfold request_of; sim;
    rewrite ?full_uri_set_password, H; sim;
    eexists; split; [reflexivity|]; sim; rewrite ?lookup_delete_eq;
    repeat split; try reflexivity;
    rewrite !elem_of_app; right; left.
Qed.

(** A session file of the wrong mode is removed, the fresh token is tried,
    and once it is accepted the file is written anew, with that token. *)
Lemma check_auth_unsafe_mode_run w f data :
  files w !! sessionfile (options w) = Some f ->
  S_IMODE (st_mode f) <> mode_600 ->
  transport (session_request w (fresh_credential getpass w)) = Answered data ->
  exists w',
    check_auth transport getpass umask w = (Return tt, w') /\
    token w' = Some (fresh_credential getpass w) /\
    sent w' = sent w ++ [session_request w (fresh_credential getpass w)] /\
    files w' !! sessionfile (options w) =
      Some (File (Z.lor (Z.ldiff (Z.lor S_IFREG (Z.ldiff 438 umask)) 4095)
                        mode_600)
                 (fresh_credential getpass w)) /\
    (forall p, p <> sessionfile (options w) -> files w' !! p = files w !! p) /\
    (ERROR, "session file " +:+ sessionfile (options w)
            +:+ " is not mode 600, forcing new session") ∈ logged w'.
Proof.
  intros Ef Em H. unfold fresh_credential, session_request in *.
  apply Z.eqb_neq in Em.
  unfold_check_auth. sim_files Ef. rewrite Em. sim_files Ef.
  destruct (opt_truth (password (options w))) eqn:Ep; sim_files2 Ef Ep.
  all: rewrite get_session_run; cbv zeta; unfold request_of; sim;
    rewrite ?full_uri_set_password, H; sim_files Ef;
    eexists; split; [reflexivity|]; sim; rewrite ?lookup_insert_eq;
    repeat split; try reflexivity.
  1,3: intros p Hp; by rewrite !lookup_insert_ne, lookup_delete_ne.
  all: rewrite !elem_of_app; left; left; right; left.
Qed.

End SessionFacts.

(** C3. When the service rejects the token that [check_auth] tries, the
    run ends there with [SystemExit]: the session file does not exist any
    more, "Login failed" is logged as fatal, and the request that was
    rejected is the only one that was made, so the token is not tried a
    second time. *)
Theorem check_auth_rejected transport getpass umask w :
  transport (session_request w (credential getpass w)) = Rejected ->
  exists w',
    check_auth transport getpass umask w = (Raise (SystemExit 1), w') /\
    files w' !! sessionfile (options w) = None /\
    (CRITICAL, "Login failed") ∈ logged w' /\
    token w' = Some (credential getpass w) /\
    sent w' = sent w ++ [session_request w (credential getpass w)].
Proof. apply check_auth_rejected_run. Qed.

Lemma check_auth_rejected_witness :
  exists w',
    check_auth rejecting_transport "typed" 18 stale_world
      = (Raise (SystemExit 1), w') /\
    files w' !! sessionfile (options stale_world) = None /\
    (CRITICAL, "Login failed") ∈ logged w' /\
    token w' = Some (credential "typed" stale_world) /\
    sent w' = sent stale_world ++
              [session_request stale_world (credential "typed" stale_world)].
Proof. apply check_auth_rejected. reflexivity. Defined.

(** C4. A session file whose permission bits are not 0600 is not read: it is
    removed (an error is logged), the token is made anew as the base64 text
    of [user:password], that token is the one sent for validation, and once
    the service accepts it the session file exists again, holds that token,
    and has permission bits 0600.  Other files are left alone. *)
Theorem check_auth_unsafe_mode transport getpass umask w f data :
  files w !! sessionfile (options w) = Some f ->
  S_IMODE (st_mode f) <> mode_600 ->
  transport (session_request w (fresh_credential getpass w)) = Answered data ->
  fresh_credential getpass w =
    b64encode (fmt_s (user (options w)) +:+ ":" +:+
               (if opt_truth (password (options w))
                then fmt_s (password (options w)) else getpass)) /\
  exists w' f',
    check_auth transport getpass umask w = (Return tt, w') /\
    token w' = Some (fresh_credential getpass w) /\
    sent w' = sent w ++ [session_request w (fresh_credential getpass w)] /\
    files w' !! sessionfile (options w) = Some f' /\
    content f' = fresh_credential getpass w /\
    S_IMODE (st_mode f') = mode_600 /\
    (forall p, p <> sessionfile (options w) -> files w' !! p = files w !! p) /\
    (ERROR, "session file " +:+ sessionfile (options w)
            +:+ " is not mode 600, forcing new session") ∈ logged w'.
Proof.
  intros Ef Em H. split; [reflexivity|].
  destruct (check_auth_unsafe_mode_run transport getpass umask w f data Ef Em H)
    as (w' & Hrun & Htok & Hsent & Hfile & Hother & Hlog).
  eexists w', _. repeat split; try eassumption; try reflexivity.
  apply S_IMODE_chmod.
Qed.

Lemma check_auth_unsafe_mode_witness :
  fresh_credential "typed" stale_world =
    b64encode (fmt_s (user (options stale_world)) +:+ ":" +:+
               (if opt_truth (password (options stale_world))
                then fmt_s (password (options stale_world)) else "typed")) /\
  exists w' f',
    check_auth sample_transport "typed" 18 stale_world = (Return tt, w') /\
    token w' = Some (fresh_credential "typed" stale_world) /\
    sent w' = sent stale_world ++
              [session_request stale_world (fresh_credential "typed" stale_world)] /\
    files w' !! sessionfile (options stale_world) = Some f' /\
    content f' = fresh_credential "typed" stale_world /\
    S_IMODE (st_mode f') = mode_600 /\
    (forall p, p <> sessionfile (options stale_world) ->
               files w' !! p = files stale_world !! p) /\
    (ERROR, "session file " +:+ sessionfile (options stale_world)
            +:+ " is not mode 600, forcing new session") ∈ logged w'.
Proof.
  apply (check_auth_unsafe_mode sample_transport "typed" 18 stale_world
           (File (Z.lor S_IFREG 420) "c3RhbGU6dG9rZW4=") (Some (PDict []))).
  - vm_compute. reflexivity.
  - vm_compute. discriminate.
  - vm_compute. reflexivity.
Defined.

(** ** Shared tables *)

Section TableFacts.

Variable transport : request -> response.

Lemma call_api_maps method uri payload w :
  maps (snd (call_api transport method uri payload w)) = maps w.
Proof.
  rewrite call_api_run. cbv zeta. destruct (transport _); reflexivity.
Qed.

(** A loop whose body leaves [self.maps] alone leaves it alone. *)
Lemma for_each_M_maps {A} (body : A -> M unit) (items : list A) :
  (forall item w, maps (snd (body item w)) = maps w) ->
  forall w, maps (snd (for_each_M body items w)) = maps w.
Proof.
  intros Hbody. induction items as [|item items IH]; intros w; [done|].
  cbn [for_each_M]. unfold mbind, M_bind.
  specialize (Hbody item w).
  destruct (body item w) as [[[]|e] w1]; simpl in *; [|done].
  by rewrite IH.
Qed.

Lemma fill_step_maps name item w :
  maps (snd ((label ← lift (py_getitem item "name" ≫= py_lower_str);
              r ← maps_getitem name;
              id ← lift (py_getitem item "id" ≫= py_int);
              table_setitem r id label) w)) = maps w.
Proof.
  destruct (py_getitem item "name" ≫= py_lower_str);
    destruct (py_getitem item "id" ≫= py_int);
    unfold lift, maps_getitem, table_setitem, modify;
    unfold mbind, M_bind;
    destruct (maps w !! name); reflexivity.
Qed.

Lemma get_project_versions_maps projectKey w w' :
  get_project_versions transport projectKey w = (Return tt, w') ->
  exists r, maps w !! "versions" = Some r /\
            maps w' = <["fixversions" := r]> (maps w).
Proof.
  unfold get_project_versions. unfold mbind at 1, M_bind at 1.
  pose proof (call_api_maps GET
    ("rest/api/latest/project" +:+ "/" +:+ projectKey +:+ "/" +:+ "versions")
    None w) as H1.
  destruct (call_api transport GET _ None w) as [[data|e] w1]; [|done].
  simpl in H1. unfold mbind at 1, M_bind at 1.
  change (lift (py_iter data) w1) with (py_iter data, w1).
  destruct (py_iter data) as [items|e]; [|done].
  cbv beta iota. unfold mbind at 1, M_bind at 1.
  match goal with
  | |- context [for_each_M ?body items w1] =>
      pose proof (for_each_M_maps body items
                    (fun item w => fill_step_maps "versions" item w) w1) as H2;
      destruct (for_each_M body items w1) as [[[]|e] w2]; [|done]
  end.
  simpl in H2. unfold maps_getitem, modify. unfold mbind, M_bind.
  rewrite H2, H1.
  destruct (maps w !! "versions") as [r|] eqn:E; [|done].
  intros [= <-]. exists r. split; [done|]. simpl. by rewrite H2, H1.
Qed.

End TableFacts.

(** In a new client the two names stand for two tables. *)
Lemma Jiraclient_init_tables_distinct o fs :
  maps (Jiraclient_init o fs) !! "versions" = Some 3%nat /\
  maps (Jiraclient_init o fs) !! "fixversions" = Some 4%nat.
Proof. split; reflexivity. Qed.

(** C10. Once [get_project_versions] has returned, the names [fixversions]
    and [versions] stand for one and the same table object: a label resolves
    to the same identifier through either name, so that [update_issue_obj]
    puts the same [{"id": ...}] into [fixVersions] as into [versions]; and
    an entry written through one name is read through the other. *)
Theorem get_project_versions_shares_table transport projectKey w w' :
  get_project_versions transport projectKey w = (Return tt, w') ->
  exists r,
    maps w' !! "versions" = Some r /\
    maps w' !! "fixversions" = Some r /\
    (forall label,
        resolve_by_name "fixversions" label w' =
        resolve_by_name "versions" label w') /\
    (forall issue value l1 l2 id,
        issue !! "versions" = Some (PList l1) ->
        issue !! "fixVersions" = Some (PList l2) ->
        fst (resolve_by_name "versions" (lower value) w') = Return id ->
        id <> 0 ->
        let entry := PDict [("id", PStr (str_of_int id))] in
        update_issue_obj issue "versions" value w' =
          (Return (Some (<["versions" := PList (pop_sentinel l1 ++ [entry])]> issue)), w') /\
        update_issue_obj issue "fixVersions" value w' =
          (Return (Some (<["fixVersions" := PList (pop_sentinel l2 ++ [entry])]> issue)), w')) /\
    (forall id label,
        fst (write_then_read "versions" "fixversions" id label w') =
          Return (<[id := label]> (tables w' !!! r)) /\
        fst (write_then_read "fixversions" "versions" id label w') =
          Return (<[id := label]> (tables w' !!! r))).
Proof.
  intros (r & Hr & Hmaps)%get_project_versions_maps.
  assert (Hv : maps w' !! "versions" = Some r).
  { rewrite Hmaps. by rewrite lookup_insert_ne. }
  assert (Hf : maps w' !! "fixversions" = Some r).
  { rewrite Hmaps. apply lookup_insert_eq. }
  exists r. split; [done|]. split; [done|]. split; [|split].
  - intros label. unfold resolve_by_name, maps_getitem.
    unfold mbind, M_bind. by rewrite Hv, Hf.
  - intros issue value l1 l2 id H1 H2 Hid Hnz entry.
    assert (Hfind : find_key (tables w' !!! r) (lower value) = Return id).
    { revert Hid. unfold resolve_by_name, maps_getitem, table_at, lift, get.
      unfold mbind, M_bind. by rewrite Hv. }
    split.
    + by rewrite (update_issue_obj_resolved issue "versions" value w'
                    (PList l1) r id H1 Hv Hfind Hnz).
    + by rewrite (update_issue_obj_resolved issue "fixVersions" value w'
                    (PList l2) r id H2 Hf Hfind Hnz).
  - intros id label.
    unfold write_then_read, maps_getitem, table_setitem, table_at, get, modify.
    unfold mbind, M_bind. rewrite Hv, Hf. cbn -[lookup_total lookup insert].
    rewrite Hv, Hf. cbn -[lookup_total lookup insert].
    by rewrite lookup_total_insert_eq.
Qed.

Lemma get_project_versions_shares_table_witness :
  exists r,
    maps sample_world_versions !! "versions" = Some r /\
    maps sample_world_versions !! "fixversions" = Some r /\
    (forall label,
        resolve_by_name "fixversions" label sample_world_versions =
        resolve_by_name "versions" label sample_world_versions) /\
    (forall issue value l1 l2 id,
        issue !! "versions" = Some (PList l1) ->
        issue !! "fixVersions" = Some (PList l2) ->
        fst (resolve_by_name "versions" (lower value) sample_world_versions)
          = Return id ->
        id <> 0 ->
        let entry := PDict [("id", PStr (str_of_int id))] in
        update_issue_obj issue "versions" value sample_world_versions =
          (Return (Some (<["versions" := PList (pop_sentinel l1 ++ [entry])]> issue)),
           sample_world_versions) /\
        update_issue_obj issue "fixVersions" value sample_world_versions =
          (Return (Some (<["fixVersions" := PList (pop_sentinel l2 ++ [entry])]> issue)),
           sample_world_versions)) /\
    (forall id label,
        fst (write_then_read "versions" "fixversions" id label
                             sample_world_versions) =
          Return (<[id := label]> (tables sample_world_versions !!! r)) /\
        fst (write_then_read "fixversions" "versions" id label
                             sample_world_versions) =
          Return (<[id := label]> (tables sample_world_versions !!! r))).
Proof.
  apply (get_project_versions_shares_table sample_transport "INFOSYS"
           (Jiraclient_init sample_options ∅)).
  vm_compute. reflexivity.
Defined.

(** ** Values computed on samples *)

Example b64encode_samples :
  b64encode "user:pass" = "dXNlcjpwYXNz" /\ b64encode "a" = "YQ==" /\
  b64encode "ab:c" = "YWI6Yw==" /\ b64encode "ab" = "YWI=".
Proof. vm_compute. repeat split. Qed.

Example time_is_valid_samples :
  map time_is_valid
      ["3d"; "3days"; "d3"; ""; "12w"; "3d" +:+ newline;
       "3d" +:+ newline +:+ newline; "h"; " 3d"] =
  [true; false; false; false; true; true; false; false; false].
Proof. vm_compute. reflexivity. Qed.

Example int_of_str_samples :
  map int_of_str ["10001"; " -42 "; "+7"; ""; "-"; "1x"; "0012"] =
  [Some 10001; Some (-42); Some 7; None; None; None; Some 12].
Proof. vm_compute. reflexivity. Qed.

Example str_of_int_samples :
  str_of_int 10001 = "10001" /\ str_of_int (-5) = "-5" /\ str_of_int 0 = "0".
Proof. vm_compute. repeat split. Qed.

(** A new issue on which nothing was set is sent with one field: the
    assignee, whose initial value [{"name": None}] is none of the three
    values that the loop of [create_issue] looks for. *)
Example prune_Issue_init :
  prune Issue_init = Return {["assignee" := name_None]}.
Proof. vm_compute. reflexivity. Qed.

(** * Further properties of the code *)

(** ** Finalization, again *)

(** X1. The loop of [create_issue] changes nothing on a dictionary that has
    been through it: run a second time on its own result it gives that
    result back, and what it gives is a part of the issue it was given. *)
Theorem prune_idempotent (issue : gmap string pyval) :
  exists fields,
    prune issue = Return fields /\
    prune fields = Return fields /\
    fields ⊆ issue.
Proof.
  exists (filter (fun kv => kept (snd kv) = true) issue).
  split; [apply prune_filter|]. split; [|apply map_filter_subseteq].
  rewrite prune_filter. f_equal. apply map_eq. intros k.
  destruct (filter _ issue !! k) as [v|] eqn:E.
  - apply map_lookup_filter_Some. split; [done|].
    by apply map_lookup_filter_Some in E as [_ ?].
  - apply map_lookup_filter_None. by left.
Qed.

(** ** [call_api] *)

(** X2. [call_api] hands exactly one request to the transport and ends in one
    of two ways: it returns what the service answered ([None] when the body
    is not JSON), or it raises [SystemExit(1)]; no other exception leaves
    it.  The session file is removed when the service says [Unauthorized]
    and is left alone otherwise; the token, the options, the tables and the
    terminal are left alone in every case. *)
Theorem call_api_outcome (transport : request -> response)
        (method : http_method) (uri : string) (payload : option pyval)
        (w : world) :
  exists out w',
    call_api transport method uri payload w = (out, w') /\
    sent w' = sent w ++ [request_of w method uri payload] /\
    token w' = token w /\ options w' = options w /\
    maps w' = maps w /\ tables w' = tables w /\ printed w' = printed w /\
    match transport (request_of w method uri payload) with
    | Answered data =>
        out = Return (default PNone data) /\ files w' = files w
    | Rejected =>
        out = Raise (SystemExit 1) /\
        files w' = delete (sessionfile (options w)) (files w) /\
        (CRITICAL, "Login failed") ∈ logged w'
    | Failed msg =>
        out = Raise (SystemExit 1) /\ files w' = files w
    end.
Proof.
  rewrite call_api_run. cbv zeta.
  destruct (transport _) as [| msg | data]; eexists _, _;
    (split; [reflexivity|]); repeat split.
  cbn. rewrite elem_of_app. right. left.
Qed.

(** ** [update_issue_obj], the other shapes *)

Lemma update_issue_obj_unmapped issue key value w attr :
  issue !! key = Some attr ->
  maps w !! lower key = None ->
  update_issue_obj issue key value w =
    (Return (Some
       match attr with
       | PStr _ => <[key := PStr value]> issue
       | PList l =>
           if String.eqb key "labels" then
             <[key := PList (l ++ [PStr value])]> issue
           else
             <[key := PList (pop_sentinel l ++
                             [PDict [("id", PStr (lower value))]])]> issue
       | PDict item =>
           let item1 :=
             if has_key "id" item then dict_set "id" (PStr value) item
             else item in
           let item2 :=
             if has_key "name" item1
             then dict_set "name" (PStr value) item1
             else item1 in
           <[key := PDict item2]> issue
       | _ => issue
       end),
     set_logged (logged w ++ [(DEBUG, "no map found for " +:+ lower key)]) w).
Proof.
  intros Hattr Hmap.
  unfold update_issue_obj, getattr, table_at, lift, get, log, modify.
  unfold mbind, M_bind, mret, M_ret. rewrite Hattr. cbv beta. rewrite Hmap.
  reflexivity.
Qed.

(** X3. A field that holds a string and has no table (summary, description,
    environment, due date) takes the value as it is given, capitals
    included; a second set replaces the first, so the last value wins. *)
Theorem update_issue_obj_scalar issue key v1 v2 w old :
  issue !! key = Some (PStr old) ->
  maps w !! lower key = None ->
  exists issue1 w1 w2,
    update_issue_obj issue key v1 w = (Return (Some issue1), w1) /\
    issue1 = <[key := PStr v1]> issue /\
    maps w1 = maps w /\
    update_issue_obj issue1 key v2 w1 = (Return (Some (<[key := PStr v2]> issue)), w2).
Proof.
  intros Hattr Hmap. eexists _, _, _.
  split; [apply (update_issue_obj_unmapped _ _ _ _ _ Hattr Hmap)|].
  split; [reflexivity|]. split; [reflexivity|].
  rewrite (update_issue_obj_unmapped (<[key := PStr v1]> issue) key v2 _ (PStr v1))
    by (try apply lookup_insert_eq; done).
  by rewrite insert_insert_eq.
Qed.

Lemma update_issue_obj_scalar_witness :
  exists issue1 w1 w2,
    update_issue_obj Issue_init "summary" "Fix the Printer" sample_world
      = (Return (Some issue1), w1) /\
    issue1 = <["summary" := PStr "Fix the Printer"]> Issue_init /\
    maps w1 = maps sample_world /\
    update_issue_obj issue1 "summary" "Replace it" w1
      = (Return (Some (<["summary" := PStr "Replace it"]> Issue_init)), w2).
Proof.
  apply (update_issue_obj_scalar Issue_init "summary" _ _ sample_world "").
  - reflexivity.
  - vm_compute. reflexivity.
Defined.

(** X4. A field of the shape [{"id": None}] that has a table (project,
    issue type, priority) gets the identifier that the table gives for the
    lower-cased value, as text; the assignee, of the shape
    [{"name": None}] and without a table, gets the value as it is given. *)
Theorem update_issue_obj_reference issue value w :
  (forall key r id,
      issue !! key = Some id_None ->
      maps w !! lower key = Some r ->
      find_key (tables w !!! r) (lower value) = Return id ->
      id <> 0 ->
      update_issue_obj issue key value w =
        (Return (Some (<[key := PDict [("id", PStr (str_of_int id))]]> issue)), w)) /\
  (issue !! "assignee" = Some name_None ->
   maps w !! "assignee" = None ->
   fst (update_issue_obj issue "assignee" value w) =
     Return (Some (<["assignee" := PDict [("name", PStr value)]]> issue))).
Proof.
  split.
  - intros key r id Hattr Hr Hid Hnz.
    by rewrite (update_issue_obj_resolved _ _ _ _ _ _ _ Hattr Hr Hid Hnz).
  - intros Hattr Hmap.
    by rewrite (update_issue_obj_unmapped issue "assignee" value w name_None Hattr Hmap).
Qed.

Lemma update_issue_obj_reference_witness :
  update_issue_obj Issue_init "project" "InfoSys" full_world =
    (Return (Some (<["project" := PDict [("id", PStr (str_of_int 10000))]]>
                     Issue_init)), full_world) /\
  fst (update_issue_obj Issue_init "assignee" "Bob" full_world) =
    Return (Some (<["assignee" := PDict [("name", PStr "Bob")]]> Issue_init)).
Proof.
  split.
  - apply (proj1 (update_issue_obj_reference Issue_init "InfoSys" full_world))
      with (r := 0%nat).
    + reflexivity.
    + vm_compute. reflexivity.
    + vm_compute. reflexivity.
    + lia.
  - apply (proj2 (update_issue_obj_reference Issue_init "Bob" full_world)).
    + reflexivity.
    + vm_compute. reflexivity.
Defined.

(** X5. An entry whose identifier is 0 counts as not found: the field is
    left as it was, [update_issue_obj] gives [None] back, and the one trace
    is the debug message. *)
Theorem update_issue_obj_zero_id issue key value w attr r :
  issue !! key = Some attr ->
  maps w !! lower key = Some r ->
  find_key (tables w !!! r) (lower value) = Return 0 ->
  update_issue_obj issue key value w =
    (Return None,
     set_logged (logged w ++ [(DEBUG, "no id found for " +:+ lower value)]) w).
Proof.
  intros Hattr Hr Hid.
  unfold update_issue_obj, getattr, table_at, lift, get, log, modify.
  unfold mbind, M_bind, mret, M_ret. rewrite Hattr. cbn. rewrite Hr. cbn.
  rewrite Hid. reflexivity.
Qed.

Lemma update_issue_obj_zero_id_witness :
  update_issue_obj Issue_init "components" "Legacy" zero_id_world =
    (Return None,
     set_logged (logged zero_id_world ++
                 [(DEBUG, "no id found for " +:+ lower "Legacy")])
                zero_id_world).
Proof.
  apply (update_issue_obj_zero_id Issue_init "components" "Legacy"
           zero_id_world list_id_None 5%nat).
  - reflexivity.
  - vm_compute. reflexivity.
  - vm_compute. reflexivity.
Defined.

Lemma dict_get_dict_set_ne {A} (k k' : string) (v : A) d :
  k <> k' -> dict_get k (dict_set k' v d) = dict_get k d.
Proof.
  intros Hne. induction d as [|[k0 v0] d IH]; simpl.
  - by apply String.eqb_neq in Hne as ->.
  - destruct (String.eqb k' k0) eqn:E; simpl.
    + apply String.eqb_eq in E as <-.
      by apply String.eqb_neq in Hne as ->.
    + by rewrite IH.
Qed.

(** X6. Where a field has a table, only the lower-cased value counts: on a
    list field other than [labels], and on a [{"id": ...}] field without a
    [name], two values that differ in case alone have the same effect, be
    it a change, a skip or an exception. *)
Theorem update_issue_obj_case_insensitive issue key v1 v2 w attr r :
  issue !! key = Some attr ->
  maps w !! lower key = Some r ->
  match attr with
  | PList _ => key <> "labels"
  | PDict item => has_key "name" item = false
  | _ => False
  end ->
  lower v1 = lower v2 ->
  update_issue_obj issue key v1 w = update_issue_obj issue key v2 w.
Proof.
  intros Hattr Hr Hshape Hlow.
  unfold update_issue_obj, getattr, table_at, lift, get, log, modify.
  unfold mbind, M_bind, mret, M_ret. rewrite Hattr. cbn. rewrite Hr. cbn.
  rewrite Hlow.
  destruct (find_key (tables w !!! r) (lower v2)) as [id|e] eqn:Hid; [|done].
  cbn. destruct (id =? 0); cbn; [done|].
  assert (Hne : bool_decide (tables w !!! r = ∅) = false).
  { apply bool_decide_eq_false. intros Hempty.
    apply find_key_Return in Hid. rewrite Hempty in Hid.
    by rewrite lookup_empty in Hid. }
  rewrite Hne. cbn -[has_key dict_set].
  destruct attr as [| | | l | item]; try done.
  - apply String.eqb_neq in Hshape. by rewrite Hshape.
  - destruct (has_key "id" item) eqn:E; [|by rewrite Hshape].
    assert (has_key "name" (dict_set "id" (PStr (str_of_int id)) item) = false)
      as ->; [|done].
    unfold has_key in *. by rewrite dict_get_dict_set_ne.
Qed.

Lemma update_issue_obj_case_insensitive_witness :
  update_issue_obj Issue_init "components" "NETWORK" full_world =
  update_issue_obj Issue_init "components" "network" full_world.
Proof.
  apply (update_issue_obj_case_insensitive Issue_init "components" _ _
           full_world list_id_None 5%nat).
  - reflexivity.
  - vm_compute. reflexivity.
  - discriminate.
  - reflexivity.
Defined.

(** X7. [update_issue_obj] works on the issue and the log alone: it sends no
    request, touches no file, table, option, token or terminal, adds at
    most one entry to the log, and in the issue it gives back every
    attribute other than the one named is as it was. *)
Theorem update_issue_obj_frame issue key value w :
  exists out w',
    update_issue_obj issue key value w = (out, w') /\
    sent w' = sent w /\ files w' = files w /\ tables w' = tables w /\
    maps w' = maps w /\ options w' = options w /\ token w' = token w /\
    printed w' = printed w /\
    (exists entries, logged w' = logged w ++ entries /\ (length entries <= 1)%nat) /\
    (forall issue', out = Return (Some issue') ->
                    forall k, k <> key -> issue' !! k = issue !! k).
Proof.
  unfold update_issue_obj, getattr, table_at, lift, get, log, modify, raise.
  unfold mbind, M_bind, mret, M_ret.
  destruct (issue !! key) as [attr|] eqn:Hattr; cbn.
  2:{ eexists _, _. split; [reflexivity|]. repeat split.
      - exists []; split; [by rewrite app_nil_r | simpl; lia].
      - done. }
  destruct (maps w !! lower key) as [r|] eqn:Hr; cbn.
  - destruct (find_key (tables w !!! r) (lower value)) as [id|e]; cbn.
    + destruct (id =? 0); cbn.
      * eexists _, _. split; [reflexivity|]. repeat split.
        -- eexists [_]; split; [reflexivity | simpl; lia].
        -- done.
      * eexists _, _. split; [reflexivity|]. repeat split.
        -- exists []; split; [by rewrite app_nil_r | simpl; lia].
        -- intros issue' [= <-] k Hk.
           destruct attr as [| | | l | item]; try done;
             try (by rewrite lookup_insert_ne).
           destruct (String.eqb key "labels"); by rewrite lookup_insert_ne.
    + eexists _, _. split; [reflexivity|]. repeat split.
      * exists []; split; [by rewrite app_nil_r | simpl; lia].
      * done.
  - eexists _, _. split; [reflexivity|]. repeat split.
    + eexists [_]; split; [reflexivity | simpl; lia].
    + intros issue' [= <-] k Hk.
      destruct attr as [| | | l | item]; try done;
        try (by rewrite lookup_insert_ne).
      destruct (String.eqb key "labels"); by rewrite lookup_insert_ne.
Qed.

(** ** Sessions, the other paths *)

Section MoreSessionFacts.

Variable transport : request -> response.
Variable getpass : string.
Variable umask : Z.

Local Opaque get_session.

Ltac simc :=
  cbn -[Z.ldiff Z.lor Z.land Z.eqb b64encode S_IMODE mode_600 String.append
        lookup insert delete full_uri headers_for].
Ltac simc_files E E' :=
  repeat (progress (simc; rewrite ?E, ?E', ?lookup_delete_eq, ?lookup_insert_eq)).
Ltac unfold_auth :=
  unfold check_auth, read_password, write_file, chmod, path_exists,
    stat_st_mode, unlink, read_file, log, print, get, modify;
  unfold mbind, M_bind, mret, M_ret.

Lemma chmod_600_same (m : Z) :
  S_IMODE m = mode_600 -> Z.lor (Z.ldiff m 4095) mode_600 = m.
Proof.
  unfold S_IMODE. intros <-. apply Z.lor_ldiff_and.
Qed.

Lemma S_IMODE_chmod_600 (m : Z) :
  S_IMODE (Z.lor (Z.ldiff m 4095) mode_600) = mode_600.
Proof.
  unfold S_IMODE. rewrite Z.land_lor_distr_l, Z.ldiff_land.
  rewrite <- Z.land_assoc, (Z.land_comm (Z.lnot 4095)), Z.land_lnot_diag.
  by rewrite Z.land_0_r.
Qed.

Lemma full_uri_password pw o uri :
  full_uri (set_password pw o) uri = full_uri o uri.
Proof. reflexivity. Qed.

(** A session file of mode 600 is read and, once the token is accepted,
    written back as it was. *)
Lemma check_auth_cached_run w f data :
  files w !! sessionfile (options w) = Some f ->
  S_IMODE (st_mode f) = mode_600 ->
  transport (session_request w (content f)) = Answered data ->
  exists w',
    check_auth transport getpass umask w = (Return tt, w') /\
    token w' = Some (content f) /\
    files w' = files w /\
    options w' = options w /\
    printed w' = printed w /\
    maps w' = maps w /\ tables w' = tables w /\
    sent w' = sent w ++ [session_request w (content f)].
Proof.
  intros Ef Em H. unfold session_request in *.
  assert (Em' : (S_IMODE (st_mode f) =? mode_600) = true) by by apply Z.eqb_eq.
  unfold_auth. simc_files Ef Em'.
  rewrite get_session_run; cbv zeta; unfold request_of; simc.
  rewrite H. simc_files Ef Em'.
  eexists. split; [reflexivity|]. simc. repeat split.
  rewrite insert_insert_eq, (chmod_600_same _ Em).
  apply insert_id. by destruct f.
Qed.

(** Without a session file the token is made from user and password, and
    once it is accepted a session file is made for it. *)
Lemma check_auth_absent_run w data :
  files w !! sessionfile (options w) = None ->
  transport (session_request w (fresh_credential getpass w)) = Answered data ->
  exists w',
    check_auth transport getpass umask w = (Return tt, w') /\
    token w' = Some (fresh_credential getpass w) /\
    files w' =
      <[sessionfile (options w) :=
          File (Z.lor (Z.ldiff (Z.lor S_IFREG (Z.ldiff 438 umask)) 4095) mode_600)
               (fresh_credential getpass w)]> (files w) /\
    printed w' = printed w ++
                 (if opt_truth (password (options w)) then []
                  else [Line "Please authenticate."]) /\
    options w' = (if opt_truth (password (options w)) then options w
                  else set_password (Some getpass) (options w)) /\
    maps w' = maps w /\ tables w' = tables w /\
    sent w' = sent w ++ [session_request w (fresh_credential getpass w)].
Proof.
  intros Ef H. unfold fresh_credential, session_request in *.
  unfold_auth. simc_files Ef Ef.
  destruct (opt_truth (password (options w))) eqn:Ep; simc_files Ef Ep.
  all: rewrite get_session_run; cbv zeta; unfold request_of; simc;
    rewrite ?full_uri_password, H; simc_files Ef Ep;
    eexists; split; [reflexivity|]; simc; repeat split;
    rewrite ?app_nil_r; try reflexivity; by rewrite insert_insert_eq.
Qed.

(** Whatever makes the validation call fail, the session file goes. *)
Lemma check_auth_failed_run w msg :
  transport (session_request w (credential getpass w)) = Failed msg ->
  exists w',
    check_auth transport getpass umask w = (Raise (SystemExit 1), w') /\
    files w' !! sessionfile (options w) = None /\
    (forall p, p <> sessionfile (options w) -> files w' !! p = files w !! p) /\
    (CRITICAL, "Unhandled API exception for method: "
               +:+ full_uri (options w) "rest/auth/latest/session"
               +:+ ": " +:+ msg) ∈ logged w' /\
    (CRITICAL, "Login failed") ∈ logged w' /\
    sent w' = sent w ++ [session_request w (credential getpass w)].
Proof.
  intros H. unfold credential, fresh_credential, session_request in *.
  unfold_auth.
  destruct (files w !! sessionfile (options w)) as [f|] eqn:Ef; simc_files Ef Ef.
  1: destruct (S_IMODE (st_mode f) =? mode_600) eqn:Em; simc_files Ef Em.
  2,3: destruct (opt_truth (password (options w))) eqn:Ep; simc_files Ef Ep.
  all: rewrite get_session_run; cbv zeta; unfold request_of; simc;
    rewrite ?full_uri_password, H; simc;
    eexists; split; [reflexivity|]; simc; rewrite ?lookup_delete_eq;
    repeat split; try reflexivity;
    try (intros p Hp; by rewrite ?lookup_delete_ne);
    rewrite !elem_of_app, !elem_of_cons; auto.
Qed.

(** A session file of another mode is replaced; the options change by the
    typed password at most. *)
Lemma check_auth_replaced_run w f data :
  files w !! sessionfile (options w) = Some f ->
  S_IMODE (st_mode f) <> mode_600 ->
  transport (session_request w (fresh_credential getpass w)) = Answered data ->
  exists w',
    check_auth transport getpass umask w = (Return tt, w') /\
    token w' = Some (fresh_credential getpass w) /\
    files w' =
      <[sessionfile (options w) :=
          File (Z.lor (Z.ldiff (Z.lor S_IFREG (Z.ldiff 438 umask)) 4095) mode_600)
               (fresh_credential getpass w)]> (files w) /\
    options w' = (if opt_truth (password (options w)) then options w
                  else set_password (Some getpass) (options w)) /\
    maps w' = maps w /\ tables w' = tables w /\
    sent w' = sent w ++ [session_request w (fresh_credential getpass w)].
Proof.
  intros Ef Em H. unfold fresh_credential, session_request in *.
  apply Z.eqb_neq in Em.
  unfold_auth. simc_files Ef Em.
  destruct (opt_truth (password (options w))) eqn:Ep; simc_files Ef Ep.
  all: rewrite get_session_run; cbv zeta; unfold request_of; simc;
    rewrite ?full_uri_password, H; simc_files Ef Ep;
    eexists; split; [reflexivity|]; simc; repeat split;
    by rewrite insert_insert_eq, insert_delete_eq.
Qed.

(** [check_auth] never touches the tables or their names. *)
Lemma check_auth_tables w :
  tables (snd (check_auth transport getpass umask w)) = tables w /\
  maps (snd (check_auth transport getpass umask w)) = maps w.
Proof.
  unfold_auth.
  destruct (files w !! sessionfile (options w)) as [f|] eqn:Ef; simc_files Ef Ef.
  1: destruct (S_IMODE (st_mode f) =? mode_600) eqn:Em; simc_files Ef Em.
  2,3: destruct (opt_truth (password (options w))) eqn:Ep; simc_files Ef Ep.
  all: rewrite get_session_run; cbv zeta;
    destruct (transport _) as [| msg | data]; simc_files Ef Ef;
    split; reflexivity.
Qed.

(** What holds after every [check_auth] that returns. *)
Lemma check_auth_success w w' :
  check_auth transport getpass umask w = (Return tt, w') ->
  exists m,
    token w' = Some (credential getpass w) /\
    files w' !! sessionfile (options w) = Some (File m (credential getpass w)) /\
    S_IMODE m = mode_600 /\
    sessionfile (options w') = sessionfile (options w) /\
    jiraurl (options w') = jiraurl (options w) /\
    sent w' = sent w ++ [session_request w (credential getpass w)].
Proof.
  intros Hrun.
  destruct (transport (session_request w (credential getpass w)))
    as [| msg | data] eqn:Ht.
  - destruct (check_auth_rejected_run transport getpass umask w Ht)
      as (w1 & Hr & _). rewrite Hr in Hrun. discriminate Hrun.
  - destruct (check_auth_failed_run w msg Ht) as (w1 & Hr & _).
    rewrite Hr in Hrun. discriminate Hrun.
  - unfold credential in *.
    destruct (files w !! sessionfile (options w)) as [f|] eqn:Ef.
    + destruct (S_IMODE (st_mode f) =? mode_600) eqn:Em.
      * apply Z.eqb_eq in Em.
        destruct (check_auth_cached_run w f data Ef Em Ht)
          as (w1 & Hr & Htok & Hfiles & Hopt & _ & _ & _ & Hsent).
        rewrite Hr in Hrun. injection Hrun as <-.
        exists (st_mode f). rewrite Hfiles, Hopt, Ef.
        repeat split; try done. by destruct f.
      * apply Z.eqb_neq in Em.
        destruct (check_auth_replaced_run w f data Ef Em Ht)
          as (w1 & Hr & Htok & Hfiles & Hopt & _ & _ & Hsent).
        rewrite Hr in Hrun. injection Hrun as <-.
        eexists. rewrite Hfiles, Hopt, lookup_insert_eq.
        repeat split; try done; try apply S_IMODE_chmod_600;
          by destruct (opt_truth _).
    + destruct (check_auth_absent_run w data Ef Ht)
        as (w1 & Hr & Htok & Hfiles & _ & Hopt & _ & _ & Hsent).
      rewrite Hr in Hrun. injection Hrun as <-.
      eexists. rewrite Hfiles, Hopt, lookup_insert_eq.
      repeat split; try done; try apply S_IMODE_chmod_600;
        by destruct (opt_truth _).
Qed.

End MoreSessionFacts.

(** X8. With a session file of mode 0600 the token is what the file holds,
    word for word: nothing is asked at the terminal, the options are not
    changed, and once the service accepts the token the files are exactly
    as they were before. *)
Theorem check_auth_cached transport getpass umask w f data :
  files w !! sessionfile (options w) = Some f ->
  S_IMODE (st_mode f) = mode_600 ->
  transport (session_request w (content f)) = Answered data ->
  exists w',
    check_auth transport getpass umask w = (Return tt, w') /\
    token w' = Some (content f) /\
    files w' = files w /\
    options w' = options w /\
    printed w' = printed w /\
    sent w' = sent w ++ [session_request w (content f)].
Proof.
  intros Ef Em H.
  destruct (check_auth_cached_run transport getpass umask w f data Ef Em H)
    as (w' & ? & ? & ? & ? & ? & _ & _ & ?).
  by exists w'.
Qed.

Lemma check_auth_cached_witness :
  exists w',
    check_auth full_transport "typed" 18 full_world = (Return tt, w') /\
    token w' = Some "dTpzZWNyZXQ=" /\
    files w' = files full_world /\
    options w' = options full_world /\
    printed w' = printed full_world /\
    sent w' = sent full_world ++ [session_request full_world "dTpzZWNyZXQ="].
Proof.
  apply (check_auth_cached full_transport "typed" 18 full_world
           (File 33152 "dTpzZWNyZXQ=") (Some (PDict []))).
  - vm_compute. reflexivity.
  - vm_compute. reflexivity.
  - vm_compute. reflexivity.
Defined.

(** X9. Without a session file the token is the base64 text of
    [user:password]; the password is asked for, after "Please
    authenticate.", exactly when the options hold none or an empty one, and
    is then kept in the options.  Once the token is accepted the session
    file exists, holds the token, and has permission bits 0600 whatever the
    umask is. *)
Theorem check_auth_first_run transport getpass umask w data :
  files w !! sessionfile (options w) = None ->
  transport (session_request w (fresh_credential getpass w)) = Answered data ->
  exists w' f',
    check_auth transport getpass umask w = (Return tt, w') /\
    token w' = Some (fresh_credential getpass w) /\
    files w' = <[sessionfile (options w) := f']> (files w) /\
    content f' = fresh_credential getpass w /\
    S_IMODE (st_mode f') = mode_600 /\
    printed w' = printed w ++
                 (if opt_truth (password (options w)) then []
                  else [Line "Please authenticate."]) /\
    password (options w') =
      (if opt_truth (password (options w)) then password (options w)
       else Some getpass).
Proof.
  intros Ef H.
  destruct (check_auth_absent_run transport getpass umask w data Ef H)
    as (w' & Hr & Htok & Hfiles & Hpr & Hopt & _).
  eexists w', _. split; [exact Hr|]. split; [exact Htok|].
  split; [exact Hfiles|]. split; [reflexivity|].
  split; [apply S_IMODE_chmod_600|]. split; [exact Hpr|].
  rewrite Hopt. by destruct (opt_truth _).
Qed.

Lemma check_auth_first_run_witness :
  exists w' f',
    check_auth full_transport "typed" 18 empty_password_world = (Return tt, w') /\
    token w' = Some (fresh_credential "typed" empty_password_world) /\
    files w' = <[sessionfile (options empty_password_world) := f']>
                 (files empty_password_world) /\
    content f' = fresh_credential "typed" empty_password_world /\
    S_IMODE (st_mode f') = mode_600 /\
    printed w' = printed empty_password_world ++
                 (if opt_truth (password (options empty_password_world)) then []
                  else [Line "Please authenticate."]) /\
    password (options w') =
      (if opt_truth (password (options empty_password_world))
       then password (options empty_password_world)
       else Some "typed").
Proof.
  apply (check_auth_first_run full_transport "typed" 18 empty_password_world
           (Some (PDict []))).
  - vm_compute. reflexivity.
  - vm_compute. reflexivity.
Defined.

(** X10. A validation call that fails for any other reason than a rejected
    token (the service is down, say) has the same end: the session file is
    removed, a good one too, other files stay, both the transport error and
    "Login failed" are logged as fatal, and the run ends with
    [SystemExit(1)] after its one request. *)
Theorem check_auth_transport_failure transport getpass umask w msg :
  transport (session_request w (credential getpass w)) = Failed msg ->
  exists w',
    check_auth transport getpass umask w = (Raise (SystemExit 1), w') /\
    files w' !! sessionfile (options w) = None /\
    (forall p, p <> sessionfile (options w) -> files w' !! p = files w !! p) /\
    (CRITICAL, "Unhandled API exception for method: "
               +:+ full_uri (options w) "rest/auth/latest/session"
               +:+ ": " +:+ msg) ∈ logged w' /\
    (CRITICAL, "Login failed") ∈ logged w' /\
    sent w' = sent w ++ [session_request w (credential getpass w)].
Proof. apply check_auth_failed_run. Qed.

Lemma check_auth_transport_failure_witness :
  exists w',
    check_auth failing_transport "typed" 18 full_world
      = (Raise (SystemExit 1), w') /\
    files w' !! sessionfile (options full_world) = None /\
    (forall p, p <> sessionfile (options full_world) ->
               files w' !! p = files full_world !! p) /\
    (CRITICAL, "Unhandled API exception for method: "
               +:+ full_uri (options full_world) "rest/auth/latest/session"
               +:+ ": " +:+ "Connection refused") ∈ logged w' /\
    (CRITICAL, "Login failed") ∈ logged w' /\
    sent w' = sent full_world ++
              [session_request full_world (credential "typed" full_world)].
Proof.
  apply (check_auth_transport_failure failing_transport "typed" 18 full_world).
  reflexivity.
Defined.

(** X11. After a [check_auth] that returns, the token of the client is the
    one that was validated, and the session file holds it with permission
    bits 0600.  So a second [check_auth] (the one of [get_issue_types])
    reads that token back whatever would be typed, and once the service
    accepts it again it changes neither the token nor any file, and asks
    nothing. *)
Theorem check_auth_twice transport getpass getpass' umask w w1 data :
  check_auth transport getpass umask w = (Return tt, w1) ->
  transport (session_request w1 (credential getpass w)) = Answered data ->
  token w1 = Some (credential getpass w) /\
  credential getpass' w1 = credential getpass w /\
  exists w2,
    check_auth transport getpass' umask w1 = (Return tt, w2) /\
    token w2 = token w1 /\
    files w2 = files w1 /\
    printed w2 = printed w1 /\
    sent w2 = sent w1 ++ [session_request w1 (credential getpass w)].
Proof.
  intros Hrun Hacc.
  destruct (check_auth_success transport getpass umask w w1 Hrun)
    as (m & Htok & Hfile & Hm & Hs & Hj & Hsent).
  rewrite <- Hs in Hfile.
  split; [exact Htok|].
  assert (Hcred : credential getpass' w1 = credential getpass w).
  { unfold credential at 1. rewrite Hfile. cbn [st_mode content].
    by apply Z.eqb_eq in Hm as ->. }
  split; [exact Hcred|].
  destruct (check_auth_cached_run transport getpass' umask w1
              (File m (credential getpass w)) data Hfile Hm Hacc)
    as (w2 & Hr2 & Htok2 & Hfiles2 & _ & Hpr2 & _ & _ & Hsent2).
  exists w2. rewrite Htok. by repeat split.
Qed.

Lemma check_auth_twice_witness :
  token full_world_session = Some (credential "typed" (Jiraclient_init sample_options ∅)) /\
  credential "other" full_world_session
    = credential "typed" (Jiraclient_init sample_options ∅) /\
  exists w2,
    check_auth full_transport "other" 18 full_world_session = (Return tt, w2) /\
    token w2 = token full_world_session /\
    files w2 = files full_world_session /\
    printed w2 = printed full_world_session /\
    sent w2 = sent full_world_session ++
              [session_request full_world_session
                 (credential "typed" (Jiraclient_init sample_options ∅))].
Proof.
  apply (check_auth_twice full_transport "typed" "other" 18
           (Jiraclient_init sample_options ∅) full_world_session
           (Some (PDict []))).
  - vm_compute. reflexivity.
  - vm_compute. reflexivity.
Defined.

(** ** Filling the tables *)

Lemma lower_ascii_idemp (c : ascii) : lower_ascii (lower_ascii c) = lower_ascii c.
Proof. destruct c as [[] [] [] [] [] [] [] []]; reflexivity. Qed.

Lemma lower_idemp (s : string) : lower (lower s) = lower s.
Proof.
  induction s as [|c s IH]; [done|]. simpl. by rewrite lower_ascii_idemp, IH.
Qed.

Lemma py_lower_str_lower (v : pyval) (label : string) :
  py_lower_str v = Return label -> lower label = label.
Proof. destruct v; try done. intros [= <-]. apply lower_idemp. Qed.

Lemma tables_lower_setitem w r id label :
  tables_lower w -> lower label = label ->
  tables_lower (set_tables (<[r := <[id := label]> (tables w !!! r)]> (tables w)) w).
Proof.
  intros Hw Hl r0 t id0 label0. cbn.
  destruct (decide (r0 = r)) as [->|Hr].
  - rewrite lookup_insert_eq. intros [= <-].
    destruct (decide (id0 = id)) as [->|Hid].
    + rewrite lookup_insert_eq. by intros [= <-].
    + rewrite lookup_insert_ne by done. rewrite lookup_total_alt.
      destruct (tables w !! r) as [t0|] eqn:E; simpl.
      * intros ?. by eapply Hw.
      * by rewrite lookup_empty.
  - rewrite lookup_insert_ne by done. apply Hw.
Qed.

Lemma for_each_M_inv {A} (P : world -> Prop) (body : A -> M unit)
      (items : list A) :
  (forall item w, P w -> P (snd (body item w))) ->
  forall w, P w -> P (snd (for_each_M body items w)).
Proof.
  intros Hbody. induction items as [|item items IH]; intros w Hw; [done|].
  cbn [for_each_M]. unfold mbind, M_bind.
  specialize (Hbody item w Hw).
  destruct (body item w) as [[[]|e] w1]; simpl in *; [|done].
  by apply IH.
Qed.

Lemma fill_step_lower name item w :
  tables_lower w ->
  tables_lower
    (snd ((label ← lift (py_getitem item "name" ≫= py_lower_str);
           r ← maps_getitem name;
           id ← lift (py_getitem item "id" ≫= py_int);
           table_setitem r id label) w)).
Proof.
  intros Hw.
  destruct (py_getitem item "name" ≫= py_lower_str) as [label|e] eqn:El;
    destruct (py_getitem item "id" ≫= py_int) as [id|e'];
    unfold lift, maps_getitem, table_setitem, modify;
    unfold mbind at 1 2 3, M_bind at 1 2 3;
    destruct (maps w !! name) as [r|]; try exact Hw.
  all: apply tables_lower_setitem; [done|].
  all: destruct (py_getitem item "name") as [v|]; [|done];
    by apply (py_lower_str_lower v).
Qed.

Lemma call_api_tables transport method uri payload w :
  tables (snd (call_api transport method uri payload w)) = tables w.
Proof. rewrite call_api_run. cbv zeta. destruct (transport _); reflexivity. Qed.

Lemma tables_lower_ext w w' :
  tables w' = tables w -> tables_lower w -> tables_lower w'.
Proof. unfold tables_lower. by intros ->. Qed.

Lemma tables_lower_init o fs : tables_lower (Jiraclient_init o fs).
Proof.
  intros r t id label Hr Ht. cbn in Hr.
  repeat (apply lookup_insert_Some in Hr as [[_ <-]|[_ Hr]];
          [by rewrite lookup_empty in Ht|]).
  by rewrite lookup_empty in Hr.
Qed.

Lemma bind_inv {A B} (P : world -> Prop) (m : M A) (f : A -> M B) w :
  P (snd (m w)) ->
  (forall a w1, P w1 -> P (snd (f a w1))) ->
  P (snd ((m ≫= f) w)).
Proof.
  intros Hm Hf. unfold mbind, M_bind.
  destruct (m w) as [[a|e] w1]; simpl in *; auto.
Qed.

Lemma fill_loop_lower name items w :
  tables_lower w ->
  tables_lower
    (snd (for_each_M (fun item =>
            label ← lift (py_getitem item "name" ≫= py_lower_str);
            r ← maps_getitem name;
            id ← lift (py_getitem item "id" ≫= py_int);
            table_setitem r id label) items w)).
Proof.
  apply (for_each_M_inv tables_lower). intros item w1. apply fill_step_lower.
Qed.

Lemma tables_lower_kept transport getpass umask projectKey w :
  tables_lower w ->
  tables_lower (snd (get_project_id transport projectKey w)) /\
  tables_lower (snd (get_issue_types transport getpass umask projectKey w)) /\
  tables_lower (snd (get_project_versions transport projectKey w)) /\
  tables_lower (snd (get_project_components transport projectKey w)) /\
  tables_lower (snd (get_resolutions transport w)) /\
  tables_lower (snd (get_priorities transport w)).
Proof.
  intros Hw.
  assert (Hcall : forall method uri payload w1,
             tables_lower w1 ->
             tables_lower (snd (call_api transport method uri payload w1))).
  { intros. eapply tables_lower_ext; [apply call_api_tables|done]. }
  repeat split.
  - unfold get_project_id. apply bind_inv; [by apply Hcall|]. intros data w1 H1.
    destruct (py_getitem data "id" ≫= py_int) as [id|e];
      unfold maps_getitem, lift, table_setitem, modify; unfold mbind, M_bind;
      destruct (maps w1 !! "project"); try exact H1.
    apply tables_lower_setitem; [done | apply lower_idemp].
  - unfold get_issue_types. apply bind_inv.
    { eapply tables_lower_ext; [apply check_auth_tables|done]. }
    intros _ w1 H1. apply bind_inv; [by apply Hcall|]. intros data w2 H2.
    apply bind_inv; [done|]. intros issuetypes w3 H3.
    apply bind_inv; [done|]. intros items w4 H4.
    by apply fill_loop_lower.
  - unfold get_project_versions. apply bind_inv; [by apply Hcall|].
    intros data w1 H1. apply bind_inv; [done|]. intros items w2 H2.
    apply bind_inv; [by apply fill_loop_lower|]. intros _ w3 H3.
    unfold maps_getitem, modify. unfold mbind, M_bind.
    by destruct (maps w3 !! "versions").
  - unfold get_project_components. apply bind_inv; [by apply Hcall|].
    intros data w1 H1. apply bind_inv; [done|]. intros items w2 H2.
    by apply fill_loop_lower.
  - unfold get_resolutions. apply bind_inv; [by apply Hcall|].
    intros data w1 H1. apply bind_inv; [done|]. intros items w2 H2.
    by apply fill_loop_lower.
  - unfold get_priorities. apply bind_inv; [by apply Hcall|].
    intros data w1 H1. apply bind_inv; [done|]. intros items w2 H2.
    by apply fill_loop_lower.
Qed.

(** X12. Every label in every table is in lower case: each method that
    fills a table keeps it so, whatever the service answers and also when
    the method ends in an exception. *)
Theorem tables_stay_lower transport getpass umask projectKey w :
  tables_lower w ->
  tables_lower (snd (get_project_id transport projectKey w)) /\
  tables_lower (snd (get_issue_types transport getpass umask projectKey w)) /\
  tables_lower (snd (get_project_versions transport projectKey w)) /\
  tables_lower (snd (get_project_components transport projectKey w)) /\
  tables_lower (snd (get_resolutions transport w)) /\
  tables_lower (snd (get_priorities transport w)).
Proof. apply tables_lower_kept. Qed.

Lemma tables_stay_lower_witness :
  tables_lower (snd (get_project_id full_transport "INFOSYS"
                       (Jiraclient_init sample_options ∅))) /\
  tables_lower (snd (get_issue_types full_transport "typed" 18 "INFOSYS"
                       (Jiraclient_init sample_options ∅))) /\
  tables_lower (snd (get_project_versions full_transport "INFOSYS"
                       (Jiraclient_init sample_options ∅))) /\
  tables_lower (snd (get_project_components full_transport "INFOSYS"
                       (Jiraclient_init sample_options ∅))) /\
  tables_lower (snd (get_resolutions full_transport
                       (Jiraclient_init sample_options ∅))) /\
  tables_lower (snd (get_priorities full_transport
                       (Jiraclient_init sample_options ∅))).
Proof.
  apply (tables_stay_lower full_transport "typed" 18 "INFOSYS"
           (Jiraclient_init sample_options ∅)).
  apply tables_lower_init.
Defined.






(** X14. When the answer to [get_project_components] is not JSON, or is a
    JSON object that is not empty (an error report, say) instead of a list,
    the method ends in a [TypeError] that nothing takes; the request is
    out, and the tables are as they were. *)
Theorem get_project_components_bad_answer transport projectKey w data :
  transport (request_of w GET ("rest/api/latest/project" +:+ "/" +:+ projectKey
                               +:+ "/" +:+ "components") None)
    = Answered data ->
  match data with
  | None => True
  | Some (PDict (_ :: _)) => True
  | _ => False
  end ->
  exists msg w',
    get_project_components transport projectKey w = (Raise (TypeError msg), w') /\
    tables w' = tables w /\ maps w' = maps w /\
    sent w' = sent w ++
      [request_of w GET ("rest/api/latest/project" +:+ "/" +:+ projectKey
                         +:+ "/" +:+ "components") None].
Proof.
  intros Ht Hshape.
  unfold get_project_components. unfold mbind at 1, M_bind at 1.
  rewrite call_api_run. cbv zeta. rewrite Ht.
  destruct data as [[| | | |[|[k v] d]]|]; try done.
  all: eexists _, _; split; [reflexivity|]; by repeat split.
Qed.

Lemma get_project_components_bad_answer_witness :
  exists msg w',
    get_project_components mute_transport "INFOSYS" full_world
      = (Raise (TypeError msg), w') /\
    tables w' = tables full_world /\ maps w' = maps full_world /\
    sent w' = sent full_world ++
      [request_of full_world GET
         ("rest/api/latest/project" +:+ "/" +:+ "INFOSYS" +:+ "/" +:+ "components")
         None].
Proof.
  apply (get_project_components_bad_answer mute_transport "INFOSYS" full_world None).
  - reflexivity.
  - exact I.
Defined.

(** X15. [get_issue_types] takes the first project of the answer: when the
    service knows no project of that key and answers with an empty list of
    projects, the method ends in an [IndexError] that nothing takes, after
    the session was validated and the request made; the tables are as they
    were. *)
Theorem get_issue_types_no_project transport getpass umask projectKey w w1 data :
  check_auth transport getpass umask w = (Return tt, w1) ->
  transport (request_of w1 GET ("rest/api/latest/issue/createmeta"
                                +:+ "?projectKeys=" +:+ projectKey) None)
    = Answered (Some data) ->
  py_getitem data "projects" = Return (PList []) ->
  exists msg w',
    get_issue_types transport getpass umask projectKey w
      = (Raise (IndexError msg), w') /\
    tables w' = tables w /\
    sent w' = sent w1 ++
      [request_of w1 GET ("rest/api/latest/issue/createmeta"
                          +:+ "?projectKeys=" +:+ projectKey) None].
Proof.
  intros Hauth Ht Hp.
  pose proof (check_auth_tables transport getpass umask w) as [Htab _].
  rewrite Hauth in Htab. cbn in Htab.
  unfold get_issue_types. unfold mbind at 1, M_bind at 1. rewrite Hauth.
  unfold mbind at 1, M_bind at 1.
  rewrite call_api_run. cbv zeta. rewrite Ht.
  change (default PNone (Some data)) with data. cbv beta iota.
  rewrite Hp.
  eexists _, _. split; [reflexivity|]. split; [exact Htab | reflexivity].
Qed.

Lemma get_issue_types_no_project_witness :
  exists msg w',
    get_issue_types no_project_transport "typed" 18 "NOPE"
      (Jiraclient_init sample_options ∅) = (Raise (IndexError msg), w') /\
    tables w' = tables (Jiraclient_init sample_options ∅) /\
    sent w' = sent no_project_session ++
      [request_of no_project_session GET
         ("rest/api/latest/issue/createmeta" +:+ "?projectKeys=" +:+ "NOPE") None].
Proof.
  apply (get_issue_types_no_project no_project_transport "typed" 18 "NOPE"
           (Jiraclient_init sample_options ∅) no_project_session
           (PDict [("projects", PList [])])).
  - vm_compute. reflexivity.
  - reflexivity.
  - reflexivity.
Defined.

(** ** From the service to the issue *)

Lemma find_key_only (t : gmap Z string) (label : string) (id : Z) :
  t !! id = Some label ->
  (forall k, t !! k = Some label -> k = id) ->
  find_key t label = Return id.
Proof.
  intros Hid Honly. destruct (find_key_hit t label id Hid) as [k Hk].
  rewrite Hk. f_equal. apply Honly. by apply find_key_Return.
Qed.

(** X16. After [get_project_id] has stored the project, setting the project
    of an issue to the same key in any capitals gives the issue the
    identifier the service sent, as text.  (The identifier must not be 0,
    and no other entry of the table may carry the same key.) *)
Theorem project_resolves_after_get_project_id
        transport projectKey value issue w r data id :
  maps w !! "project" = Some r ->
  (forall k, (tables w !!! r) !! k = Some (lower projectKey) -> k = id) ->
  transport (request_of w GET ("rest/api/latest/project" +:+ "/" +:+ projectKey)
                        None) = Answered (Some data) ->
  py_getitem data "id" ≫= py_int = Return id ->
  id <> 0 ->
  issue !! "project" = Some id_None ->
  lower value = lower projectKey ->
  exists w1,
    get_project_id transport projectKey w = (Return tt, w1) /\
    find_value (tables w1 !!! r) id = Return (lower projectKey) /\
    update_issue_obj issue "project" value w1 =
      (Return (Some (<["project" := PDict [("id", PStr (str_of_int id))]]> issue)),
       w1).
Proof.
  intros Hr Honly Ht Hid Hnz Hattr Hlow.
  unfold get_project_id. unfold mbind at 1, M_bind at 1.
  rewrite call_api_run. cbv zeta. rewrite Ht.
  change (default PNone (Some data)) with data. cbv beta iota.
  rewrite Hid.
  unfold maps_getitem, lift, table_setitem, modify.
  unfold mbind at 1 2, M_bind at 1 2.
  change (maps (after_call w GET _ None)) with (maps w). rewrite Hr.
  eexists. split; [reflexivity|].
  set (w1 := set_tables _ _).
  assert (Htab : tables w1 !!! r = <[id := lower projectKey]> (tables w !!! r)).
  { unfold w1. cbn. by rewrite lookup_total_insert_eq. }
  split.
  - unfold find_value. by rewrite Htab, lookup_insert_eq.
  - rewrite (update_issue_obj_resolved issue "project" value w1 id_None r id);
      try done.
    rewrite Hlow, Htab. apply find_key_only; [apply lookup_insert_eq|].
    intros k Hk. destruct (decide (k = id)) as [|Hne]; [done|].
    rewrite lookup_insert_ne in Hk by done. by apply Honly.
Qed.

Lemma project_resolves_after_get_project_id_witness :
  exists w1,
    get_project_id full_transport "INFOSYS" (Jiraclient_init sample_options ∅)
      = (Return tt, w1) /\
    find_value (tables w1 !!! 0%nat) 10000 = Return (lower "INFOSYS") /\
    update_issue_obj Issue_init "project" "InfoSys" w1 =
      (Return (Some (<["project" := PDict [("id", PStr (str_of_int 10000))]]>
                       Issue_init)), w1).
Proof.
  apply (project_resolves_after_get_project_id full_transport "INFOSYS" "InfoSys"
           Issue_init (Jiraclient_init sample_options ∅) 0%nat
           (PDict [("id", PStr "10000"); ("key", PStr "INFOSYS")])).
  - reflexivity.
  - intros k Hk. vm_compute in Hk. discriminate Hk.
  - vm_compute. reflexivity.
  - vm_compute. reflexivity.
  - lia.
  - reflexivity.
  - reflexivity.
Defined.





(** ** Resolving, deleting, creating *)

Lemma tables_lower_full_world : tables_lower full_world.
Proof.
  assert (E : full_world =
              snd ((get_project_id full_transport "INFOSYS";;
                    get_issue_types full_transport "typed" 18 "INFOSYS";;
                    get_project_versions full_transport "INFOSYS";;
                    get_project_components full_transport "INFOSYS";;
                    get_resolutions full_transport;;
                    get_priorities full_transport)
                     (Jiraclient_init sample_options ∅)))
    by (vm_compute; reflexivity).
  rewrite E.
  apply bind_inv;
    [apply (tables_lower_kept full_transport "typed" 18 "INFOSYS"),
       tables_lower_init|].
  intros _ w1 H1. apply bind_inv;
    [by apply (tables_lower_kept full_transport "typed" 18 "INFOSYS")|].
  intros _ w2 H2. apply bind_inv;
    [by apply (tables_lower_kept full_transport "typed" 18 "INFOSYS")|].
  intros _ w3 H3. apply bind_inv;
    [by apply (tables_lower_kept full_transport "typed" 18 "INFOSYS")|].
  intros _ w4 H4. apply bind_inv;
    [by apply (tables_lower_kept full_transport "typed" 18 "INFOSYS")|].
  intros _ w5 H5.
  by apply (tables_lower_kept full_transport "typed" 18 "INFOSYS").
Qed.

(** X18. [resolve_issue] looks the resolution up as it is given, while the
    tables hold lower-case labels: a resolution written with a capital
    letter is never found.  The method then ends in an [IndexError] that
    nothing takes, before any request is made. *)
Theorem resolve_issue_case_sensitive transport issueID resolution w r :
  maps w !! "resolutions" = Some r ->
  tables_lower w ->
  lower resolution <> resolution ->
  exists msg,
    resolve_issue transport issueID resolution w = (Raise (IndexError msg), w).
Proof.
  intros Hr Hlow Hcase.
  unfold resolve_issue, maps_getitem, table_at, get, lift.
  unfold mbind, M_bind. rewrite Hr. cbv beta iota.
  rewrite find_key_miss; [by eexists|].
  intros k Hk. rewrite lookup_total_alt in Hk.
  destruct (tables w !! r) as [t|] eqn:E; simpl in Hk.
  - apply Hcase. by eapply Hlow.
  - by rewrite lookup_empty in Hk.
Qed.

Lemma resolve_issue_case_sensitive_witness :
  exists msg,
    resolve_issue full_transport "INFOSYS-7" "Fixed" full_world
      = (Raise (IndexError msg), full_world).
Proof.
  apply (resolve_issue_case_sensitive full_transport "INFOSYS-7" "Fixed"
           full_world 6%nat).
  - vm_compute. reflexivity.
  - apply tables_lower_full_world.
  - discriminate.
Defined.

(** X19. When the table holds the resolution as given, [resolve_issue]
    POSTs [{"id": <identifier>}], the identifier being the number and not
    its text, to the transitions of the issue, then asks for the server
    information to print where the issue is, prints the answer, and gives
    the answer of the POST back. *)
Theorem resolve_issue_sends transport issueID resolution w r id answer info baseUrl :
  maps w !! "resolutions" = Some r ->
  find_key (tables w !!! r) resolution = Return id ->
  transport (request_of w POST ("rest/api/latest/issue/" +:+ issueID +:+ "/transitions")
                        (Some (PDict [("id", PInt id)]))) = Answered answer ->
  transport (request_of w GET "rest/api/latest/serverInfo" None)
    = Answered (Some info) ->
  py_getitem info "baseUrl" = Return baseUrl ->
  exists w',
    resolve_issue transport issueID resolution w
      = (Return (default PNone answer), w') /\
    sent w' = sent w ++
      [request_of w POST ("rest/api/latest/issue/" +:+ issueID +:+ "/transitions")
                  (Some (PDict [("id", PInt id)]));
       request_of w GET "rest/api/latest/serverInfo" None] /\
    printed w' = printed w ++
      [Formatted "Resolved %s/browse/%s" [baseUrl; PStr issueID];
       Pretty (default PNone answer)] /\
    tables w' = tables w /\ files w' = files w.
Proof.
  intros Hr Hid Hpost Hinfo Hbase.
  unfold resolve_issue, get_serverinfo, maps_getitem, table_at, get, lift,
    print, modify.
  unfold mbind, M_bind, mret, M_ret. rewrite Hr. cbv beta iota.
  rewrite Hid. cbv beta iota.
  rewrite call_api_run. cbv zeta. rewrite Hpost. cbv beta iota.
  rewrite call_api_run. cbv zeta.
  change (request_of (after_call w POST _ _) GET "rest/api/latest/serverInfo" None)
    with (request_of w GET "rest/api/latest/serverInfo" None).
  rewrite Hinfo. change (default PNone (Some info)) with info. cbv beta iota.
  rewrite Hbase. eexists. split; [reflexivity|]. cbn.
  by rewrite <- !app_assoc.
Qed.

Lemma resolve_issue_sends_witness :
  exists w',
    resolve_issue full_transport "INFOSYS-7" "fixed" full_world
      = (Return (default PNone (Some (PDict []))), w') /\
    sent w' = sent full_world ++
      [request_of full_world POST
         ("rest/api/latest/issue/" +:+ "INFOSYS-7" +:+ "/transitions")
         (Some (PDict [("id", PInt 1)]));
       request_of full_world GET "rest/api/latest/serverInfo" None] /\
    printed w' = printed full_world ++
      [Formatted "Resolved %s/browse/%s"
         [PStr "https://jira.example.org"; PStr "INFOSYS-7"];
       Pretty (default PNone (Some (PDict [])))] /\
    tables w' = tables full_world /\ files w' = files full_world.
Proof.
  apply (resolve_issue_sends full_transport "INFOSYS-7" "fixed" full_world 6%nat 1
           (Some (PDict [])) (PDict [("baseUrl", PStr "https://jira.example.org")])).
  - vm_compute. reflexivity.
  - vm_compute. reflexivity.
  - vm_compute. reflexivity.
  - vm_compute. reflexivity.
  - reflexivity.
Defined.

(** X20. [delete_issue] deletes first and asks for the server information
    afterwards: when the DELETE is answered and the server information
    cannot be read (no JSON, or no [baseUrl] in it), the method ends in the
    exception of that lookup and prints nothing, although the DELETE
    request has been made. *)
Theorem delete_issue_then_fails transport issueID w answer info e :
  transport (request_of w DELETE ("rest/api/latest/issue/" +:+ issueID
                                  +:+ "?deleteSubtasks") None) = Answered answer ->
  transport (request_of w GET "rest/api/latest/serverInfo" None) = Answered info ->
  py_getitem (default PNone info) "baseUrl" = Raise e ->
  exists w',
    delete_issue transport issueID w = (Raise e, w') /\
    sent w' = sent w ++
      [request_of w DELETE ("rest/api/latest/issue/" +:+ issueID
                            +:+ "?deleteSubtasks") None;
       request_of w GET "rest/api/latest/serverInfo" None] /\
    printed w' = printed w.
Proof.
  intros Hdel Hinfo Hbase.
  unfold delete_issue, get_serverinfo, lift, print, modify.
  unfold mbind, M_bind, mret, M_ret.
  rewrite call_api_run. cbv zeta. rewrite Hdel. cbv beta iota.
  rewrite call_api_run. cbv zeta.
  change (request_of (after_call w DELETE _ _) GET "rest/api/latest/serverInfo" None)
    with (request_of w GET "rest/api/latest/serverInfo" None).
  rewrite Hinfo. cbv beta iota. rewrite Hbase.
  eexists. split; [reflexivity|]. cbn. by rewrite <- !app_assoc.
Qed.

Lemma delete_issue_then_fails_witness :
  exists w',
    delete_issue mute_transport "INFOSYS-7" full_world
      = (Raise (TypeError "'NoneType' object has no attribute '__getitem__'"), w') /\
    sent w' = sent full_world ++
      [request_of full_world DELETE
         ("rest/api/latest/issue/" +:+ "INFOSYS-7" +:+ "?deleteSubtasks") None;
       request_of full_world GET "rest/api/latest/serverInfo" None] /\
    printed w' = printed full_world.
Proof.
  apply (delete_issue_then_fails mute_transport "INFOSYS-7" full_world None None).
  - reflexivity.
  - reflexivity.
  - reflexivity.
Defined.





